(** * go-k8s-http-api: the HTTP handlers and the TLS setup, embedded in Rocq

    The development follows the Go packages of the repository:

    - [strings], [json], [url], [http], [tls]: the small part of the Go
      standard library the program calls, as far as the program observes it;
    - [metav1], [appsv1], [client], [rest]: the Kubernetes types and the two
      client interfaces the handlers are given (external collaborators, kept
      abstract, with an in-memory store [memstore] in the manner of the fake
      client of [deployments_test.go]);
    - [handlers]: [internal/handlers/deployments.go] and
      [internal/handlers/healthz.go];
    - [main]: the routing closures and the TLS configuration of [cmd/main.go].

    [klog] calls only write to the process log and are left out, except
    [klog.Fatalf], which ends the process and is a result of its own. *)

From Stdlib Require Import ZArith String Ascii List Bool Lia.
From stdpp Require Import base tactics option list strings gmap.

Local Open Scope string_scope.
Local Open Scope list_scope.
Local Open Scope Z_scope.

(** A Go [error] is identified with the text its [Error()] method returns,
    which is all that [%v] formatting observes. *)
Definition error : Type := string.

(** [int32]: the handlers compare such values with [0] and copy them; no
    arithmetic is done on them, so no wrap-around is involved. *)
Definition int32 : Type := Z.

(** ** strings *)
Module strings.

(** [strings.Split(s, sep)] for a one-byte separator: the substrings
    between the separators, [n+1] of them for [n] separators (so the empty
    string gives one empty substring). *)
Fixpoint Split (s : string) (sep : ascii) : list string :=
  match s with
  | EmptyString => [EmptyString]
  | String c rest =>
      if Ascii.eqb c sep then EmptyString :: Split rest sep
      else match Split rest sep with
           | hd :: tl => String c hd :: tl
           | [] => [String c EmptyString]
           end
  end.

(** [strings.Join(elems, sep)] for a one-byte separator. *)
Fixpoint Join (elems : list string) (sep : ascii) : string :=
  match elems with
  | [] => EmptyString
  | [e] => e
  | e :: rest => e +:+ String sep (Join rest sep)
  end.

(** [strings.IndexByte(s, c) >= 0]: does the byte occur in the string. *)
Fixpoint ContainsByte (s : string) (c : ascii) : bool :=
  match s with
  | EmptyString => false
  | String x rest => Ascii.eqb x c || ContainsByte rest c
  end.

End strings.

(** ** encoding/json, as values *)
Module json.

(** What [json.NewEncoder(w).Encode(v)] writes, as a JSON document (the
    byte-level rendering, escapes and the trailing newline are the
    library's). Object members keep the order of the struct fields. *)
#[local] Set Warnings "-register-all".
Inductive value : Type :=
| Null
| Num (n : Z)
| Str (s : string)
| Arr (items : list value)
| Obj (members : list (string * value)).

(** [json.Marshal] of the structs of the program, directed by their
    [json:"..."] tags. *)
Class Marshal (A : Type) := marshal : A → value.

#[global] Instance marshal_string : Marshal string := Str.
#[global] Instance marshal_int32 : Marshal int32 := Num.
(** A nil pointer is rendered [null]. *)
#[global] Instance marshal_ptr `{Marshal A} : Marshal (option A) :=
  λ p, match p with Some x => marshal x | None => Null end.
(** A non-nil slice is rendered as an array, in order. *)
#[global] Instance marshal_slice `{Marshal A} : Marshal (list A) :=
  λ l, Arr (map marshal l).

(** [json.NewDecoder(body).Decode(&v)] into a zero value of type [A]: the
    decoded value, or the cause of the failure. The parser is the
    library's; the handlers only branch on its outcome. *)
Class Unmarshal (A : Type) := Decode : string → error + A.

End json.

(** ** net/url *)
Module url.

(** [url.Values]: [map[string][]string]. *)
Abbreviation Values := (gmap string (list string)).

(** [Values.Get]: the first value of the key, or the empty string when
    the key is absent or has no value. *)
Definition Get (v : Values) (key : string) : string :=
  match v !! key with
  | Some (x :: _) => x
  | _ => ""
  end.

(** The part of [url.URL] the handlers read: [Path], and the parsed query
    that [URL.Query()] returns. *)
Record URL : Type := { Path : string; Query : Values }.

End url.

(** ** net/http *)
Module http.

Definition StatusOK : Z := 200.
Definition StatusBadRequest : Z := 400.
Definition StatusNotFound : Z := 404.
Definition StatusMethodNotAllowed : Z := 405.
Definition StatusInternalServerError : Z := 500.
Definition StatusServiceUnavailable : Z := 503.

Definition MethodGet : string := "GET".
Definition MethodPut : string := "PUT".

Record Request : Type := {
  Method : string;
  URL : url.URL;
  Body : string
}.

(** The response under construction. [Code] is [None] until the header is
    written; [Sent] holds the documents written to the body so far;
    [ConnUp] tells whether writes to the connection succeed (a test
    recorder always accepts them). *)
Record ResponseWriter : Type := {
  Header : gmap string string;
  Code : option Z;
  Sent : list json.value;
  ConnUp : bool
}.

(** The writer a handler is started with. *)
Definition NewWriter (up : bool) : ResponseWriter :=
  {| Header := ∅; Code := None; Sent := []; ConnUp := up |}.

(** [httptest.NewRecorder()]. *)
Definition NewRecorder : ResponseWriter := NewWriter true.

(** [w.Header().Set(k, v)]; changes made after the header was written are
    not sent. *)
Definition SetHeader (w : ResponseWriter) (k v : string) : ResponseWriter :=
  match Code w with
  | Some _ => w
  | None => {| Header := <[k := v]> (Header w); Code := Code w;
               Sent := Sent w; ConnUp := ConnUp w |}
  end.

(** [w.WriteHeader(code)]: only the first call counts, a later one is
    reported as superfluous and ignored. *)
Definition WriteHeader (w : ResponseWriter) (code : Z) : ResponseWriter :=
  match Code w with
  | Some _ => w
  | None => {| Header := Header w; Code := Some code;
               Sent := Sent w; ConnUp := ConnUp w |}
  end.

(** [w.Write] of one encoded document: writes the header with [200] if
    none was written yet, then the document, or fails when the
    connection is gone. *)
Definition Write (w : ResponseWriter) (doc : json.value)
  : ResponseWriter * option error :=
  let w1 := WriteHeader w StatusOK in
  if ConnUp w1
  then ({| Header := Header w1; Code := Code w1;
           Sent := Sent w1 ++ [doc]; ConnUp := ConnUp w1 |}, None)
  else (w1, Some "write: broken pipe").

End http.

(** ** k8s.io/apimachinery and k8s.io/api/apps/v1 *)
Module metav1.
Record ObjectMeta : Type := { Name : string; Namespace : string }.
End metav1.

Module appsv1.
Record DeploymentSpec : Type := { Replicas : option int32 }.
Record Deployment : Type := {
  ObjectMeta : metav1.ObjectMeta;
  Spec : DeploymentSpec
}.
Record DeploymentList : Type := { Items : list Deployment }.

Definition Name (d : Deployment) : string := metav1.Name (ObjectMeta d).
Definition Namespace (d : Deployment) : string :=
  metav1.Namespace (ObjectMeta d).

(** [d.Spec.Replicas = r]. *)
Definition setReplicas (d : Deployment) (r : option int32) : Deployment :=
  {| ObjectMeta := ObjectMeta d; Spec := {| Replicas := r |} |}.
End appsv1.

(** ** sigs.k8s.io/controller-runtime/pkg/client *)
Module client.

Record ObjectKey : Type := { Namespace : string; Name : string }.

(** The key an object is stored under. *)
Definition ObjectKeyFromObject (d : appsv1.Deployment) : ObjectKey :=
  {| Namespace := appsv1.Namespace d; Name := appsv1.Name d |}.

(** The only list option the handlers pass. *)
Inductive ListOption : Type :=
| InNamespace (ns : string).

(** [client.MergeFrom(base)]: a merge patch, computed on use as the
    difference between the object handed to [Patch] and [base]. *)
Inductive Patch : Type :=
| MergeFrom (base : appsv1.Deployment).

(** [client.Client], the object store the handlers borrow. [Store] is the
    state behind it. Reads leave the state as it is; [Patch] returns the
    state it leaves (changed or not, also when it reports an error) and, on
    success, the object as the store returned it, which the Go method
    writes back into its argument. *)
Class Client (Store : Type) : Type := {
  Get : Store → ObjectKey → error + appsv1.Deployment;
  List : Store → list ListOption → error + appsv1.DeploymentList;
  DoPatch : Store → appsv1.Deployment → Patch →
            Store * (error + appsv1.Deployment)
}.

(** The calls a handler makes on the client, in order. *)
Inductive Call : Type :=
| CallGet (key : ObjectKey)
| CallList (opts : list ListOption)
| CallPatch (obj : appsv1.Deployment) (patch : Patch).

Definition isPatch (c : Call) : bool :=
  match c with CallPatch _ _ => true | _ => false end.

End client.

(** ** k8s.io/client-go/rest *)
Module rest.

(** [rest.Result] as the health handler observes it: what [Error()]
    returns and what [Raw()] returns. *)
Record Result : Type := {
  Error : option error;
  Raw : string * option error
}.

(** [rest.Interface], used only as
    [Client.Get().AbsPath(p).Do(ctx)]: the result of a GET on an absolute
    path of the upstream API server. *)
Definition Interface : Type := string → Result.

End rest.

(** ** State threaded through a handler *)

(** A handler is a state transformer with a result. *)
Definition M (St A : Type) : Type := St → A * St.

#[global] Instance M_ret {St} : MRet (M St) := λ A a s, (a, s).
#[global] Instance M_bind {St} : MBind (M St) :=
  λ A B f m s, match m s with (a, s') => f a s' end.

(** The state of a deployments handler: the object store behind the
    client, the response writer, and the client calls made so far. *)
Record World (Store : Type) : Type := {
  store : Store;
  writer : http.ResponseWriter;
  calls : list client.Call
}.
Arguments store {Store} _.
Arguments writer {Store} _.
Arguments calls {Store} _.

(** States that hold the response writer [w] of the handler. *)
Class HasWriter (St : Type) : Type := {
  getw : St → http.ResponseWriter;
  setw : http.ResponseWriter → St → St
}.

#[global] Instance writer_HasWriter : HasWriter http.ResponseWriter :=
  {| getw := λ w, w; setw := λ w _, w |}.

#[global] Instance World_HasWriter {Store} : HasWriter (World Store) :=
  {| getw := writer;
     setw := λ w wd, {| store := store wd; writer := w; calls := calls wd |} |}.

(** [w.WriteHeader(code)] *)
Definition WriteHeader `{HasWriter St} (code : Z) : M St unit :=
  λ s, (tt, setw (http.WriteHeader (getw s) code) s).

(** [w.Header().Set(k, v)] *)
Definition HeaderSet `{HasWriter St} (k v : string) : M St unit :=
  λ s, (tt, setw (http.SetHeader (getw s) k v) s).

(** [json.NewEncoder(w).Encode(v)]: marshals [v] (which cannot fail for the
    values of this program) and writes the document; the error is that of
    the write. *)
Definition Encode `{HasWriter St} `{json.Marshal A} (v : A) : M St (option error) :=
  λ s, match http.Write (getw s) (json.marshal v) with
       | (w', err) => (err, setw w' s)
       end.

(** * internal/handlers *)
Module handlers.

(** ** deployments.go: types *)

(** [DeploymentResponse] is the response object for the deployments API. *)
Record DeploymentResponse : Type := {
  Name : string;        (* json:"name" *)
  Namespace : string    (* json:"namespace" *)
}.

(** [Replicas] is the request / response object; its one field, of the same
    name in Go, is a pointer: [None] is [nil]. *)
Record Replicas : Type := {
  Replicas_ : option int32   (* json:"replicas" *)
}.

(** [APIError] is the response object for cases when an error occurs. *)
Record APIError : Type := {
  Message : string      (* json:"message" *)
}.

(** [DeploymentResponseWithReplicas] embeds the two structs. *)
Record DeploymentResponseWithReplicas : Type := {
  embDeploymentResponse : DeploymentResponse;
  embReplicas : Replicas
}.

Definition DeploymentResponse_members (d : DeploymentResponse)
  : list (string * json.value) :=
  [("name", json.marshal (Name d)); ("namespace", json.marshal (Namespace d))].

Definition Replicas_members (r : Replicas) : list (string * json.value) :=
  [("replicas", json.marshal (Replicas_ r))].

#[global] Instance marshal_DeploymentResponse : json.Marshal DeploymentResponse :=
  λ d, json.Obj (DeploymentResponse_members d).
#[global] Instance marshal_Replicas : json.Marshal Replicas :=
  λ r, json.Obj (Replicas_members r).
#[global] Instance marshal_APIError : json.Marshal APIError :=
  λ e, json.Obj [("message", json.marshal (Message e))].
(** The fields of embedded structs are promoted to the embedding one. *)
#[global] Instance marshal_DeploymentResponseWithReplicas
  : json.Marshal DeploymentResponseWithReplicas :=
  λ d, json.Obj (DeploymentResponse_members (embDeploymentResponse d)
                 ++ Replicas_members (embReplicas d)).

(** [Validate] validates the Replicas object and returns an error if it is
    invalid ([None] is the [nil] error). *)
Definition Validate (r : Replicas) : option error :=
  match Replicas_ r with
  | None => Some "replicas field is required"
  | Some n =>
      if (n <? 0)%Z
      then Some "replicas field must be greater than or equal to 0"
      else None
  end.

(** [generateListDeploymentsResponse]: one [append] per item of the list. *)
Definition generateListDeploymentsResponse (result : appsv1.DeploymentList)
  : list DeploymentResponse :=
  fold_left
    (λ response d,
       response ++ [ {| Name := appsv1.Name d; Namespace := appsv1.Namespace d |} ])
    (appsv1.Items result) [].

(** [parseNamespaceAndDeploymentNameFromURL]: segments 2 and 3 of the path
    split at the slashes, or two empty strings when there are fewer than
    four segments. *)
Definition parseNamespaceAndDeploymentNameFromURL (r : http.Request)
  : string * string :=
  let pathSegments := strings.Split (url.Path (http.URL r)) "/"%char in
  if (Z.of_nat (length pathSegments) <? 4)%Z then ("", "")
  else
    let namespace := default "" (pathSegments !! 2%nat) in
    let deployment := default "" (pathSegments !! 3%nat) in
    (namespace, deployment).

(** ** deployments.go: the handler *)
Section DeploymentsHandler.

(** [DeploymentsHandler] embeds a [client.Client]; the request body is
    decoded with [encoding/json]. *)
Context {Store : Type} `{Hclient : !client.Client Store} `{Hjson : !json.Unmarshal Replicas}.

Abbreviation Handler := (M (World Store) unit).

(** [h.Get], [h.List], [h.Patch]: the client call, recorded. *)
Definition Get (key : client.ObjectKey) : M (World Store) (error + appsv1.Deployment) :=
  λ wd, (client.Get (store wd) key,
         {| store := store wd; writer := writer wd;
            calls := calls wd ++ [client.CallGet key] |}).

Definition List (opts : list client.ListOption)
  : M (World Store) (error + appsv1.DeploymentList) :=
  λ wd, (client.List (store wd) opts,
         {| store := store wd; writer := writer wd;
            calls := calls wd ++ [client.CallList opts] |}).

Definition Patch (obj : appsv1.Deployment) (patch : client.Patch)
  : M (World Store) (error + appsv1.Deployment) :=
  λ wd, match client.DoPatch (store wd) obj patch with
        | (store', res) =>
            (res, {| store := store'; writer := writer wd;
                     calls := calls wd ++ [client.CallPatch obj patch] |})
        end.

(** [getDeployment] returns a deployment object from the client. *)
Definition getDeployment (namespace deployment : string)
  : M (World Store) (error + appsv1.Deployment) :=
  res ← Get {| client.Namespace := namespace; client.Name := deployment |};
  match res with
  | inl err => mret (inl err)
  | inr d => mret (inr d)
  end.

(** The common tail [if encErr != nil { w.WriteHeader(500) }]. *)
Definition onEncodeError (encErr : option error) : Handler :=
  match encErr with
  | Some _ => WriteHeader http.StatusInternalServerError
  | None => mret tt
  end.

(** Lines 153-159 of [ListDeployments]. *)
Definition writeList (dl : appsv1.DeploymentList) : Handler :=
  let response := generateListDeploymentsResponse dl in
  WriteHeader http.StatusOK;;
  err ← Encode response;
  onEncodeError err.

(** [ListDeployments] handles the "/deployments" endpoint. *)
Definition ListDeployments (r : http.Request) : Handler :=
  let namespace := url.Get (url.Query (http.URL r)) "namespace" in
  if decide (namespace ≠ "") then
    res ← List [client.InNamespace namespace];
    match res with
    | inl err => WriteHeader http.StatusInternalServerError
    | inr dl => writeList dl
    end
  else
    res ← List [];
    match res with
    | inl err => WriteHeader http.StatusInternalServerError
    | inr dl => writeList dl
    end.

Definition notFoundMessage (deployment namespace : string) : string :=
  "Error getting deployment " +:+ deployment +:+ " in namespace " +:+ namespace.

Definition patchFailedMessage (deployment namespace : string) : string :=
  "Error patching deployment " +:+ deployment +:+ " in namespace " +:+ namespace.

(** [GetDeploymentReplicas] handles GET on
    "/deployments/{namespace}/{deployment}/replicas". *)
Definition GetDeploymentReplicas (r : http.Request) : Handler :=
  let '(namespace, deployment) := parseNamespaceAndDeploymentNameFromURL r in
  res ← getDeployment namespace deployment;
  match res with
  | inl err =>
      WriteHeader http.StatusNotFound;;
      encErr ← Encode {| Message := notFoundMessage deployment namespace |};
      onEncodeError encErr
  | inr d =>
      let replicas := appsv1.Replicas (appsv1.Spec d) in
      WriteHeader http.StatusOK;;
      err ← Encode {| embDeploymentResponse :=
                        {| Name := deployment; Namespace := namespace |};
                      embReplicas := {| Replicas_ := replicas |} |};
      onEncodeError err
  end.

(** [SetDeploymentReplicas] handles PUT on the same path. *)
Definition SetDeploymentReplicas (r : http.Request) : Handler :=
  let '(namespace, deployment) := parseNamespaceAndDeploymentNameFromURL r in
  res ← getDeployment namespace deployment;
  match res with
  | inl err =>
      WriteHeader http.StatusNotFound;;
      encErr ← Encode {| Message := notFoundMessage deployment namespace |};
      onEncodeError encErr
  | inr d =>
      match json.Decode (http.Body r) with
      | inl err =>
          let resp := "Error parsing request body: " +:+ err in
          WriteHeader http.StatusBadRequest;;
          encErr ← Encode {| Message := resp |};
          onEncodeError encErr
      | inr rep =>
          match Validate rep with
          | Some err =>
              let resp := "Validation error: " +:+ err in
              WriteHeader http.StatusBadRequest;;
              encErr ← Encode {| Message := resp |};
              onEncodeError encErr
          | None =>
              let patch := client.MergeFrom d in
              let d := appsv1.setReplicas d (Replicas_ rep) in
              res ← Patch d patch;
              match res with
              | inl err =>
                  WriteHeader http.StatusInternalServerError;;
                  encErr ← Encode {| Message := patchFailedMessage deployment namespace |};
                  mret tt
              | inr d =>
                  WriteHeader http.StatusOK;;
                  err ← Encode {| embDeploymentResponse :=
                                    {| Name := deployment; Namespace := namespace |};
                                  embReplicas :=
                                    {| Replicas_ := appsv1.Replicas (appsv1.Spec d) |} |};
                  onEncodeError err
              end
          end
      end
  end.

End DeploymentsHandler.

(** ** healthz.go *)

Record healthResponse : Type := {
  Status : string       (* json:"status" *)
}.

#[global] Instance marshal_healthResponse : json.Marshal healthResponse :=
  λ h, json.Obj [("status", json.marshal (Status h))].

(** [HealthzHandler] is an HTTP handler for the healthz API. *)
Record HealthzHandler : Type := { Client : rest.Interface }.

Definition ServeHTTP `{HasWriter St} (h : HealthzHandler) (r : http.Request)
  : M St unit :=
  let result := Client h "/healthz" in
  let err := rest.Error result in
  HeaderSet "Content-Type" "application/json";;
  match err with
  | Some err =>
      WriteHeader http.StatusServiceUnavailable;;
      encErr ← Encode {| Status := "Error: " +:+ err |};
      match encErr with
      | Some _ => WriteHeader http.StatusInternalServerError
      | None => mret tt
      end
  | None =>
      match rest.Raw result with
      | (rawResult, Some err) =>
          WriteHeader http.StatusInternalServerError;;
          encErr ← Encode {| Status := "Error reading response: " +:+ err |};
          match encErr with
          | Some _ => WriteHeader http.StatusInternalServerError
          | None => mret tt
          end
      | (rawResult, None) =>
          if decide (rawResult = "ok") then
            WriteHeader http.StatusOK;;
            encErr ← Encode {| Status := "ok" |};
            match encErr with
            | Some _ => WriteHeader http.StatusInternalServerError
            | None => mret tt
            end
          else
            WriteHeader http.StatusServiceUnavailable;;
            encErr ← Encode {| Status := "unhealthy: " +:+ rawResult |};
            match encErr with
            | Some _ => WriteHeader http.StatusInternalServerError
            | None => mret tt
            end
      end
  end.

End handlers.

(** ** crypto/tls and crypto/x509 *)
Module tls.

(** [ClientAuthType], in the order of the library's constants. *)
Inductive ClientAuthType : Type :=
| NoClientCert
| RequestClientCert
| RequireAnyClientCert
| VerifyClientCertIfGiven
| RequireAndVerifyClientCert.

Definition VersionTLS10 : Z := 0x0301.
Definition VersionTLS11 : Z := 0x0302.
Definition VersionTLS12 : Z := 0x0303.
Definition VersionTLS13 : Z := 0x0304.

(** The protocol versions the library implements. *)
Definition supportedVersions : list Z :=
  [VersionTLS13; VersionTLS12; VersionTLS11; VersionTLS10].

(** The fields of [tls.Config] that [run] sets. A loaded key pair and a
    certificate pool are opaque to the program; they are kept as the data
    they were loaded from. *)
Record Config (Certificate CertPool : Type) : Type := {
  Certificates : list Certificate;
  ClientAuth : ClientAuthType;
  ClientCAs : CertPool;
  MinVersion : Z
}.
Arguments Certificates {Certificate CertPool} _.
Arguments ClientAuth {Certificate CertPool} _.
Arguments ClientCAs {Certificate CertPool} _.
Arguments MinVersion {Certificate CertPool} _.

(** The library's reading of [ClientAuth]: must the client send a
    certificate, and is a certificate that was sent verified. *)
Definition requiresClientCert (a : ClientAuthType) : bool :=
  match a with
  | RequireAnyClientCert | RequireAndVerifyClientCert => true
  | _ => false
  end.

Definition verifiesClientCert (a : ClientAuthType) : bool :=
  match a with
  | VerifyClientCertIfGiven | RequireAndVerifyClientCert => true
  | _ => false
  end.

Section Handshake.
Context {Certificate CertPool : Type}.
(** Chain verification of a client certificate against a pool (x509). *)
Variable verify : CertPool → Certificate → bool.

(** Does the server go on with a client that offers protocol version [v]
    (no [MaxVersion] is set, so the newest supported one bounds it). *)
Definition versionAccepted (c : Config Certificate CertPool) (v : Z) : bool :=
  bool_decide (v ∈ supportedVersions) && (MinVersion c <=? v).

(** Does the server go on with a client that presented [crt], or none. *)
Definition clientCertAccepted (c : Config Certificate CertPool)
    (crt : option Certificate) : bool :=
  match crt with
  | None => negb (requiresClientCert (ClientAuth c))
  | Some x =>
      if verifiesClientCert (ClientAuth c) then verify (ClientCAs c) x else true
  end.
End Handshake.

End tls.

(** * cmd/main.go *)
Module main.

(** ** Routing *)
Section Routes.
Context {Store : Type} `{Hclient : !client.Client Store}
        `{Hjson : !json.Unmarshal handlers.Replicas}.

(** [loggingMiddleware] wraps a handler between two log lines. *)
Definition loggingMiddleware (next : http.Request → M (World Store) unit)
  : http.Request → M (World Store) unit :=
  λ r, next r.

(** The handler registered on "/deployments". *)
Definition deploymentsRoute : http.Request → M (World Store) unit :=
  loggingMiddleware handlers.ListDeployments.

(** The handler registered on "/deployments/": a switch on the method. *)
Definition replicasRoute : http.Request → M (World Store) unit :=
  loggingMiddleware (λ r,
    if decide (http.Method r = http.MethodGet) then
      handlers.GetDeploymentReplicas r
    else if decide (http.Method r = http.MethodPut) then
      handlers.SetDeploymentReplicas r
    else
      WriteHeader http.StatusMethodNotAllowed).

End Routes.

(** ** TLS setup in [run] *)
Section TLSSetup.
(** The files and the parsers [run] relies on: [tls.LoadX509KeyPair],
    [os.ReadFile], and [AppendCertsFromPEM] on a pool that starts as
    [x509.NewCertPool()]. *)
Context {Certificate CertPool : Type}.
Variable LoadX509KeyPair : string → string → error + Certificate.
Variable ReadFile : string → error + string.
Variable NewCertPool : CertPool.
Variable AppendCertsFromPEM : CertPool → string → CertPool.

(** The outcome of a startup step: [klog.Fatalf] with a message ends the
    process, otherwise the step yields its value. *)
Inductive Startup (A : Type) : Type :=
| Fatal (msg : string)
| Ready (a : A).
Arguments Fatal {A} _.
Arguments Ready {A} _.

(** Lines 108-128 of [run], for the flags [--server-cert], [--cert-key]
    and [--ca-cert]. *)
Definition tlsConfig (serverCert certKey caCert : string)
  : Startup (tls.Config Certificate CertPool) :=
  match LoadX509KeyPair serverCert certKey with
  | inl err =>
      Fatal ("Error loading server certificate and private key: " +:+ err)
  | inr cert =>
      let caCertPool := NewCertPool in
      match ReadFile caCert with
      | inl err => Fatal ("Error loading CA certificate: " +:+ err)
      | inr parsedCaCert =>
          let caCertPool := AppendCertsFromPEM caCertPool parsedCaCert in
          Ready {| tls.Certificates := [cert];
                   tls.ClientAuth := tls.RequireAndVerifyClientCert;
                   tls.ClientCAs := caCertPool;
                   tls.MinVersion := tls.VersionTLS13 |}
      end
  end.

End TLSSetup.
Arguments Fatal {A} _.
Arguments Ready {A} _.

(** ** The unauthenticated server *)

(** The handler of [healthzServer] (":8080"): the health handler on
    "/healthz", a bare 404 on every other path. *)
Definition healthzServerHandler `{HasWriter St} (healthzHandler : handlers.HealthzHandler)
    (r : http.Request) : M St unit :=
  if decide (url.Path (http.URL r) = "/healthz") then
    handlers.ServeHTTP healthzHandler r
  else
    WriteHeader http.StatusNotFound.

(** ** Cluster credentials in [run] *)

(** [rest.ErrNotInCluster], the one error [run] compares with; an error
    being its text here, the comparison is on the text. *)
Definition ErrNotInCluster : error :=
  "unable to load in-cluster configuration, KUBERNETES_SERVICE_HOST and KUBERNETES_SERVICE_PORT must be defined".

Section Credentials.
(** [clientcmd.BuildConfigFromFlags(masterUrl, kubeconfigPath)] and
    [rest.InClusterConfig()], the latter delayed as in the source: it is
    only called when the former fails. *)
Context {RestConfig : Type}.
Variable BuildConfigFromFlags : string → string → error + RestConfig.
Variable InClusterConfig : unit → error + RestConfig.

(** Lines 140-161 of [run]. *)
Definition restConfig (kubeconfig : string) : Startup RestConfig :=
  match BuildConfigFromFlags "" kubeconfig with
  | inr config => Ready config
  | inl err =>
      match InClusterConfig tt with
      | inl err =>
          if decide (err = ErrNotInCluster) then
            Fatal "kubeconfig failed to load and not running in cluster, cannot continue. Please provide a valid kubeconfig file or run in-cluster"
          else
            Fatal ("Error getting in-cluster config: " +:+ err)
      | inr config => Ready config
      end
  end.

End Credentials.

(** ** [setupManager] *)
Section Manager.
(** [appsv1.AddToScheme(scheme)] ([None]: no error) and [ctrl.NewManager]
    on the configuration [ctrl.GetConfigOrDie()] finds by itself. *)
Context {Manager : Type}.
Variable AddToScheme : option error.
Variable NewManager : unit → error + Manager.

Definition setupManager : error + Manager :=
  match AddToScheme with
  | Some err => inl ("failed to add apps/v1 to scheme: " +:+ err)
  | None =>
      match NewManager tt with
      | inl err => inl err
      | inr mgr => inr mgr
      end
  end.

End Manager.

(** ** [run], up to the start of the servers

    The test of [err] that follows the server literal (line 134) sees the
    [nil] of the CA read and never fires; it has no counterpart here. *)

(** The command-line flags of [run]. *)
Record Flags : Type := {
  port : string;
  kubeconfig : string;
  serverCert : string;
  certKey : string;
  caCert : string
}.

(** What [run] has set up when it starts its goroutines: the two servers
    and the clients behind the handlers. *)
Record Servers (Certificate CertPool RestConfig Clientset Manager : Type) : Type := {
  serverAddr : string;
  serverTLSConfig : tls.Config Certificate CertPool;
  healthzAddr : string;
  clusterConfig : RestConfig;
  clientset : Clientset;
  mgr : Manager
}.
Arguments serverAddr {_ _ _ _ _} _.
Arguments serverTLSConfig {_ _ _ _ _} _.
Arguments healthzAddr {_ _ _ _ _} _.
Arguments clusterConfig {_ _ _ _ _} _.
Arguments clientset {_ _ _ _ _} _.
Arguments mgr {_ _ _ _ _} _.

(** How [run] ends: it returns an error (and [main] exits with status 1),
    [klog.Fatalf] ends the process, or the servers are started and [run]
    returns [nil]. *)
Inductive RunOutcome (A : Type) : Type :=
| Returned (err : error)
| Exited (msg : string)
| Serving (srv : A).
Arguments Returned {A} _.
Arguments Exited {A} _.
Arguments Serving {A} _.

Section Run.
Context {Certificate CertPool RestConfig Clientset Manager : Type}.
(** [os.UserHomeDir()], [filepath.Join], and [flagSet.Parse] on the
    command line, given the defaults of the flags. *)
Variable UserHomeDir : error + string.
Variable filepath_Join : list string → string.
Variable flagParse : Flags → error + Flags.
Variable LoadX509KeyPair : string → string → error + Certificate.
Variable ReadFile : string → error + string.
Variable NewCertPool : CertPool.
Variable AppendCertsFromPEM : CertPool → string → CertPool.
Variable BuildConfigFromFlags : string → string → error + RestConfig.
Variable InClusterConfig : unit → error + RestConfig.
(** [kubernetes.NewForConfig(config)] *)
Variable NewForConfig : RestConfig → error + Clientset.
Variable AddToScheme : option error.
Variable NewManager : unit → error + Manager.

Definition run
  : RunOutcome (Servers Certificate CertPool RestConfig Clientset Manager) :=
  match UserHomeDir with
  | inl err => Returned err
  | inr homedir =>
      match flagParse {| port := "8443";
                         kubeconfig := filepath_Join [homedir; ".kube"; "config"];
                         serverCert := ""; certKey := ""; caCert := "" |} with
      | inl err => Returned err
      | inr flags =>
          match tlsConfig LoadX509KeyPair ReadFile NewCertPool AppendCertsFromPEM
                  (serverCert flags) (certKey flags) (caCert flags) with
          | Fatal msg => Exited msg
          | Ready tlsConfig =>
              match restConfig BuildConfigFromFlags InClusterConfig
                      (kubeconfig flags) with
              | Fatal msg => Exited msg
              | Ready config =>
                  match NewForConfig config with
                  | inl err => Returned err
                  | inr clientset =>
                      match setupManager AddToScheme NewManager with
                      | inl err => Exited ("Error setting up manager: " +:+ err)
                      | inr mgr =>
                          Serving {| serverAddr := ":" +:+ port flags;
                                     serverTLSConfig := tlsConfig;
                                     healthzAddr := ":8080";
                                     clusterConfig := config;
                                     clientset := clientset;
                                     mgr := mgr |}
                      end
                  end
              end
          end
      end
  end.

End Run.

End main.

(** * The object store: what the handlers rely on, and two instances *)

(** The listing side of the store behind the client: the deployments it
    holds, in its listing order, and the answers of [List] against them. *)
Class ListContract (Store : Type) `{Hclient : !client.Client Store} : Type := {
  (** the deployments held, in the store's listing order *)
  objects : Store → list appsv1.Deployment;
  (** a list without options spans all namespaces *)
  List_all : ∀ s dl,
    client.List s [] = inr dl → appsv1.Items dl = objects s;
  (** a list in a (named) namespace yields the deployments of it *)
  List_InNamespace : ∀ s ns dl,
    ns ≠ "" →
    client.List s [client.InNamespace ns] = inr dl →
    appsv1.Items dl = filter (λ d, appsv1.Namespace d = ns) (objects s)
}.

(** The lookup side: no object has an empty name. *)
Class LookupContract (Store : Type) `{Hclient : !client.Client Store} : Prop := {
  Get_unnamed : ∀ s ns,
    ∃ err, client.Get s {| client.Namespace := ns; client.Name := "" |} = inl err
}.

Module memstore.

(** The deployments, in insertion order; the first one under a key is the
    one the key names. *)
Definition Store : Type := list appsv1.Deployment.

#[global] Instance ObjectKey_eq_dec : EqDecision client.ObjectKey.
Proof. solve_decision. Defined.

Definition named (k : client.ObjectKey) (d : appsv1.Deployment) : Prop :=
  client.ObjectKeyFromObject d = k.

#[global] Instance named_dec k d : Decision (named k d).
Proof. unfold named. apply _. Defined.

Definition Get (s : Store) (k : client.ObjectKey) : error + appsv1.Deployment :=
  if decide (client.Name k = "") then inl "resource name may not be empty"
  else match list_find (named k) s with
       | Some (_, d) => inr d
       | None => inl "not found"
       end.

(** [InNamespace] with the empty string selects every namespace. *)
Definition List (s : Store) (opts : list client.ListOption)
  : error + appsv1.DeploymentList :=
  match opts with
  | client.InNamespace ns :: _ =>
      if decide (ns = "") then inr {| appsv1.Items := s |}
      else inr {| appsv1.Items := filter (λ d, appsv1.Namespace d = ns) s |}
  | [] => inr {| appsv1.Items := s |}
  end.

(** The merge patch between [base] and [obj], over the one field the
    program changes: [None] when the field is the same in both. *)
Definition mergeDiff (obj base : appsv1.Deployment) : option (option int32) :=
  if decide (appsv1.Replicas (appsv1.Spec obj) = appsv1.Replicas (appsv1.Spec base))
  then None
  else Some (appsv1.Replicas (appsv1.Spec obj)).

Definition applyDiff (diff : option (option int32)) (stored : appsv1.Deployment)
  : appsv1.Deployment :=
  match diff with
  | None => stored
  | Some r => appsv1.setReplicas stored r
  end.

Definition DoPatch (s : Store) (obj : appsv1.Deployment) (p : client.Patch)
  : Store * (error + appsv1.Deployment) :=
  match p with
  | client.MergeFrom base =>
      let k := client.ObjectKeyFromObject obj in
      if decide (client.Name k = "") then (s, inl "resource name may not be empty")
      else match list_find (named k) s with
           | None => (s, inl "not found")
           | Some (i, stored) =>
               let stored' := applyDiff (mergeDiff obj base) stored in
               (<[i := stored']> s, inr stored')
           end
  end.

#[global] Instance memstore_Client : client.Client Store :=
  {| client.Get := Get; client.List := List; client.DoPatch := DoPatch |}.

(** The double quote, and a one-member JSON object [{"key":val}] as the
    request bodies of [deployments_test.go] spell it. *)
Definition dquote : string := String "034"%char "".
Definition body1 (key val : string) : string :=
  "{" +:+ dquote +:+ key +:+ dquote +:+ ":" +:+ val +:+ "}".

(** A decoder for the request bodies of [deployments_test.go], for
    [{"replicas":0}] and for text that is no JSON, standing for
    [encoding/json] on these inputs. *)
Definition testDecode (body : string) : error + handlers.Replicas :=
  if decide (body = body1 "replicas" "7") then
    inr {| handlers.Replicas_ := Some 7 |}
  else if decide (body = body1 "replicas" "99") then
    inr {| handlers.Replicas_ := Some 99 |}
  else if decide (body = body1 "replicas" "0") then
    inr {| handlers.Replicas_ := Some 0 |}
  else if decide (body = body1 "replicas" "-1") then
    inr {| handlers.Replicas_ := Some (-1) |}
  else if decide (body = body1 "replikas" "99") then
    inr {| handlers.Replicas_ := None |}
  else inl "invalid character 'r' looking for beginning of value".

#[export] Instance test_Unmarshal : json.Unmarshal handlers.Replicas := testDecode.

End memstore.

(** ** A store read through a cache

    The client [run] hands to the deployments handler is the manager's
    ([mgr.GetClient()], "in order to take advantage of the cache"): [Get]
    and [List] are answered from a cache that follows the API server by
    watch events, [Patch] goes to the API server and returns the object as
    the server then has it. [cache] is what the reads see, [server] what
    the patch changes; [sync] is the cache catching up. *)
Module cachestore.

Record Store : Type := {
  cache : memstore.Store;
  server : memstore.Store
}.

Definition Get (s : Store) (k : client.ObjectKey) : error + appsv1.Deployment :=
  memstore.Get (cache s) k.

Definition List (s : Store) (opts : list client.ListOption)
  : error + appsv1.DeploymentList :=
  memstore.List (cache s) opts.

Definition DoPatch (s : Store) (obj : appsv1.Deployment) (p : client.Patch)
  : Store * (error + appsv1.Deployment) :=
  match memstore.DoPatch (server s) obj p with
  | (server', res) => ({| cache := cache s; server := server' |}, res)
  end.

Definition sync (s : Store) : Store :=
  {| cache := server s; server := server s |}.

#[global] Instance cachestore_Client : client.Client Store :=
  {| client.Get := Get; client.List := List; client.DoPatch := DoPatch |}.

End cachestore.

(** * Serving one request *)

(** The world a deployments handler leaves when it is started on store [s]
    with a fresh response writer ([up]: the connection takes writes). *)
Definition serve {Store : Type} (h : M (World Store) unit) (s : Store) (up : bool)
  : World Store :=
  (h {| store := s; writer := http.NewWriter up; calls := [] |}).2.

(** Status code and body of the response held by a writer. *)
Definition status {Store : Type} (wd : World Store) : option Z :=
  http.Code (writer wd).
Definition body {Store : Type} (wd : World Store) : list json.value :=
  http.Sent (writer wd).

(** What a client receives as body when the handler wrote [docs]: all of
    it on a live connection, nothing on a dead one. *)
Definition delivered (up : bool) (docs : list json.value) : list json.value :=
  if up then docs else [].

(** The world after a handler that made the calls [cs], left store [s'],
    wrote status [code] and handed [docs] to the encoder. *)
Definition answered {Store : Type} (s' : Store) (cs : list client.Call)
    (code : Z) (docs : list json.value) (up : bool) : World Store :=
  {| store := s';
     writer := {| http.Header := ∅; http.Code := Some code;
                  http.Sent := delivered up docs; http.ConnUp := up |};
     calls := cs |}.

(** The JSON documents of the specification's data model. *)
Definition APIErrorDoc (message : string) : json.value :=
  json.Obj [("message", json.Str message)].

Definition HealthStatusDoc (st : string) : json.value :=
  json.Obj [("status", json.Str st)].

Definition DeploymentSummaryDoc (d : appsv1.Deployment) : json.value :=
  json.Obj [("name", json.Str (appsv1.Name d));
            ("namespace", json.Str (appsv1.Namespace d))].

Definition ReplicaViewDoc (name namespace : string) (replicas : option int32)
  : json.value :=
  json.Obj [("name", json.Str name); ("namespace", json.Str namespace);
            ("replicas", match replicas with
                         | Some n => json.Num n
                         | None => json.Null
                         end)].

(** The four outcomes of the health check as the specification words them,
    in its order: code and status text for a given upstream result. *)
Inductive HealthOutcome (res : rest.Result) : Z → string → Prop :=
| TransportError err :
    rest.Error res = Some err →
    HealthOutcome res 503 ("Error: " +:+ err)
| BodyUnreadable raw err :
    rest.Error res = None →
    rest.Raw res = (raw, Some err) →
    HealthOutcome res 500 ("Error reading response: " +:+ err)
| Healthy :
    rest.Error res = None →
    rest.Raw res = ("ok", None) →
    HealthOutcome res 200 "ok"
| Unhealthy raw :
    rest.Error res = None →
    rest.Raw res = (raw, None) →
    raw ≠ "ok" →
    HealthOutcome res 503 ("unhealthy: " +:+ raw).

(** The list request as the specification words it: when the [namespace]
    parameter is present (with first value [ns]) the body is the summaries
    of the store's deployments of namespace [ns], otherwise the summaries
    of all of them, in the store's order. *)
Definition ListSpecBody (query : url.Values) (objs : list appsv1.Deployment)
  : list json.value :=
  match query !! "namespace" with
  | Some (ns :: _) =>
      [json.Arr (map DeploymentSummaryDoc
                     (filter (λ d, appsv1.Namespace d = ns) objs))]
  | _ => [json.Arr (map DeploymentSummaryDoc objs)]
  end.

(** * Data of [deployments_test.go] *)
Module testdata.

Definition deployment (namespace name : string) (replicas : option int32)
  : appsv1.Deployment :=
  {| appsv1.ObjectMeta := {| metav1.Name := name; metav1.Namespace := namespace |};
     appsv1.Spec := {| appsv1.Replicas := replicas |} |}.

Definition request (method path : string) (query : url.Values) (body : string)
  : http.Request :=
  {| http.Method := method;
     http.URL := {| url.Path := path; url.Query := query |};
     http.Body := body |}.

(** The store of the get-replicas and set-replicas tests. *)
Definition oneDeployment : memstore.Store :=
  [deployment "test-namespace" "test-deployment" (Some 3)].

(** The store of the list tests. *)
Definition twoNamespaces : memstore.Store :=
  [deployment "test-namespace" "test-deployment" None;
   deployment "test-namespace2" "test-deployment2" None].

(** The store of the bad-request tests. *)
Definition fooBar : memstore.Store := [deployment "foo" "bar" (Some 3)].

Definition getReplicas : http.Request :=
  request "GET" "/deployments/test-namespace/test-deployment/replicas" ∅ "".

Definition putReplicas7 : http.Request :=
  request "PUT" "/deployments/test-namespace/test-deployment/replicas" ∅
    (memstore.body1 "replicas" "7").

Definition putFooBar99 : http.Request :=
  request "PUT" "/deployments/foo/bar/replicas" ∅ (memstore.body1 "replicas" "99").

Definition putFooBarTypo : http.Request :=
  request "PUT" "/deployments/foo/bar/replicas" ∅ (memstore.body1 "replikas" "99").

Definition putFooBarNegative : http.Request :=
  request "PUT" "/deployments/foo/bar/replicas" ∅ (memstore.body1 "replicas" "-1").

(** Requests beyond the tests: no JSON in the body, a path of three
    segments, and list requests with the [namespace] parameter set, and
    set to the empty string ("/deployments?namespace="). *)
Definition putFooBarGarbage : http.Request :=
  request "PUT" "/deployments/foo/bar/replicas" ∅ "replicas=7".

Definition getShortPath : http.Request :=
  request "GET" "/deployments/test-namespace" ∅ "".

Definition listAll : http.Request := request "GET" "/deployments" ∅ "".

Definition listNamespace2 : http.Request :=
  request "GET" "/deployments" {[ "namespace" := ["test-namespace2"] ]} "".

Definition listEmptyNamespace : http.Request :=
  request "GET" "/deployments" {[ "namespace" := [""] ]} "".

(** A store whose list operation is out of order. *)
Definition brokenList : client.Client memstore.Store :=
  {| client.Get := memstore.Get;
     client.List := λ _ _, inl "cache is not started";
     client.DoPatch := memstore.DoPatch |}.

(** Upstream answers for the health check. *)
Definition upstreamOk : handlers.HealthzHandler :=
  {| handlers.Client := λ _, {| rest.Error := None; rest.Raw := ("ok", None) |} |}.

(** Startup files: a key pair under "server.crt"/"server.key", a CA
    bundle under "ca.crt"; a pool is the list of PEM blocks added to it,
    and a client certificate verifies when it is one of them. *)
Definition loadKeyPair (certFile keyFile : string) : error + string :=
  if decide (certFile = "server.crt" ∧ keyFile = "server.key")
  then inr "server-cert" else inl "open: no such file or directory".

Definition readFile (name : string) : error + string :=
  if decide (name = "ca.crt") then inr "ca-cert"
  else inl "open: no such file or directory".

Definition appendPEM (pool : list string) (pem : string) : list string :=
  pool ++ [pem].

Definition verifyIn (pool : list string) (crt : string) : bool :=
  bool_decide (crt ∈ pool).

(** A store that reads but refuses every patch. *)
Definition brokenPatch : client.Client memstore.Store :=
  {| client.Get := memstore.Get;
     client.List := memstore.List;
     client.DoPatch := λ s _ _, (s, inl "the server is currently unable to handle the request") |}.

(** More requests: another method, the replicas path without its last
    segment and with a query, a list request by POST. *)
Definition deleteReplicas : http.Request :=
  request "DELETE" "/deployments/test-namespace/test-deployment/replicas" ∅ "".

Definition getWithoutSuffix : http.Request :=
  request "GET" "/deployments/test-namespace/test-deployment"
    {[ "namespace" := ["other"] ]} "".

Definition postListNamespace2 : http.Request :=
  request "POST" "/deployments" {[ "namespace" := ["test-namespace2"; "x"] ]} "{}".

Definition getDeployments : http.Request := request "GET" "/deployments" ∅ "".

(** A CA file without certificates in it: nothing is added to the pool. *)
Definition appendNothing (pool : list string) (pem : string) : list string := pool.

(** Cluster access: a kubeconfig under "/home/api/.kube/config" only, and
    no cluster around the process. *)
Definition buildConfig (masterUrl kubeconfigPath : string) : error + string :=
  if decide (kubeconfigPath = "/home/api/.kube/config") then inr "kubeconfig"
  else inl "stat: no such file or directory".

Definition notInCluster (_ : unit) : error + string := inl main.ErrNotInCluster.

Definition inCluster (_ : unit) : error + string := inr "in-cluster".

(** A command line with the three certificate flags. *)
Definition parseCertFlags (defaults : main.Flags) : error + main.Flags :=
  inr {| main.port := main.port defaults;
         main.kubeconfig := main.kubeconfig defaults;
         main.serverCert := "server.crt";
         main.certKey := "server.key";
         main.caCert := "ca.crt" |}.

Definition joinSlash (elems : list string) : string := strings.Join elems "/"%char.

(** The store of the replicas tests behind a cache that is in step with
    the server, and behind one that still shows seven replicas while the
    server has three (the state an earlier patch leaves before the cache
    follows). *)
Definition inStep : cachestore.Store :=
  {| cachestore.cache := oneDeployment; cachestore.server := oneDeployment |}.


End testdata.

(** * Properties *)

(** ** Pure helpers *)

Lemma Split_nonempty (s : string) (sep : ascii) : strings.Split s sep ≠ [].
Proof.
  destruct s as [|c rest]; simpl; [done|].
  destruct (Ascii.eqb c sep); [done|].
  by destruct (strings.Split rest sep).
Qed.

(** The loop of [generateListDeploymentsResponse] is a [map]. *)
Lemma generateListDeploymentsResponse_map (dl : appsv1.DeploymentList) :
  handlers.generateListDeploymentsResponse dl
  = map (λ d, {| handlers.Name := appsv1.Name d;
                 handlers.Namespace := appsv1.Namespace d |})
        (appsv1.Items dl).
Proof.
  unfold handlers.generateListDeploymentsResponse.
  destruct dl as [items]; simpl.
  assert (G : ∀ acc,
    fold_left (λ response d,
        response ++ [ {| handlers.Name := appsv1.Name d;
                         handlers.Namespace := appsv1.Namespace d |} ]) items acc
    = acc ++ map (λ d, {| handlers.Name := appsv1.Name d;
                          handlers.Namespace := appsv1.Namespace d |}) items).
  { induction items as [|d items IH]; intros acc; simpl.
    - by rewrite app_nil_r.
    - rewrite IH. by rewrite <- app_assoc. }
  by rewrite G.
Qed.

(** The parse of a path with fewer than four segments. *)
Lemma parse_short (r : http.Request) :
  (length (strings.Split (url.Path (http.URL r)) "/"%char) < 4)%nat →
  handlers.parseNamespaceAndDeploymentNameFromURL r = ("", "").
Proof.
  intros Hlen. unfold handlers.parseNamespaceAndDeploymentNameFromURL.
  destruct (Z.ltb_spec (Z.of_nat (length (strings.Split (url.Path (http.URL r)) "/"%char))) 4);
    [done | lia].
Qed.

(** ** The handlers, one lemma per path through the code *)

(** Unfolds the monad and the writer primitives in the goal. *)
Ltac step_handler :=
  unfold serve, status, body, handlers.getDeployment, handlers.Get,
    handlers.List, handlers.Patch, handlers.writeList, handlers.onEncodeError,
    WriteHeader, HeaderSet, Encode, mbind, M_bind, mret, M_ret; simpl.

Section DeploymentsPaths.
Context {Store : Type} `{Hclient : !client.Client Store}
        `{Hjson : !json.Unmarshal handlers.Replicas}.
Implicit Types (s : Store) (r : http.Request) (up : bool).

Lemma GetDeploymentReplicas_not_found s r up namespace deployment err :
  handlers.parseNamespaceAndDeploymentNameFromURL r = (namespace, deployment) →
  client.Get s {| client.Namespace := namespace; client.Name := deployment |}
    = inl err →
  serve (handlers.GetDeploymentReplicas r) s up
  = answered s
      [client.CallGet {| client.Namespace := namespace; client.Name := deployment |}]
      404 [APIErrorDoc (handlers.notFoundMessage deployment namespace)] up.
Proof.
  intros Hparse Hget. unfold handlers.GetDeploymentReplicas.
  rewrite Hparse. step_handler. rewrite Hget. by destruct up.
Qed.

Lemma GetDeploymentReplicas_found s r up namespace deployment d :
  handlers.parseNamespaceAndDeploymentNameFromURL r = (namespace, deployment) →
  client.Get s {| client.Namespace := namespace; client.Name := deployment |}
    = inr d →
  serve (handlers.GetDeploymentReplicas r) s up
  = answered s
      [client.CallGet {| client.Namespace := namespace; client.Name := deployment |}]
      200 [ReplicaViewDoc deployment namespace (appsv1.Replicas (appsv1.Spec d))] up.
Proof.
  intros Hparse Hget. unfold handlers.GetDeploymentReplicas.
  rewrite Hparse. step_handler. rewrite Hget. by destruct up.
Qed.

Lemma ListDeployments_run s r up :
  let namespace := url.Get (url.Query (http.URL r)) "namespace" in
  let opts := if decide (namespace ≠ "") then [client.InNamespace namespace] else [] in
  serve (handlers.ListDeployments r) s up
  = match client.List s opts with
    | inl _ => answered s [client.CallList opts] 500 [] up
    | inr dl =>
        answered s [client.CallList opts] 200
          [json.Arr (map DeploymentSummaryDoc (appsv1.Items dl))] up
    end.
Proof.
  intros namespace opts. unfold handlers.ListDeployments.
  fold namespace. subst opts. destruct (decide (namespace ≠ "")); step_handler.
  - destruct (client.List s [client.InNamespace namespace]) as [err|dl]; simpl.
    + by destruct up.
    + rewrite generateListDeploymentsResponse_map.
      unfold json.marshal, json.marshal_slice. rewrite map_map.
      by destruct up.
  - destruct (client.List s []) as [err|dl]; simpl.
    + by destruct up.
    + rewrite generateListDeploymentsResponse_map.
      unfold json.marshal, json.marshal_slice. rewrite map_map.
      by destruct up.
Qed.

Lemma SetDeploymentReplicas_not_found s r up namespace deployment err :
  handlers.parseNamespaceAndDeploymentNameFromURL r = (namespace, deployment) →
  client.Get s {| client.Namespace := namespace; client.Name := deployment |}
    = inl err →
  serve (handlers.SetDeploymentReplicas r) s up
  = answered s
      [client.CallGet {| client.Namespace := namespace; client.Name := deployment |}]
      404 [APIErrorDoc (handlers.notFoundMessage deployment namespace)] up.
Proof.
  intros Hparse Hget. unfold handlers.SetDeploymentReplicas.
  rewrite Hparse. step_handler. rewrite Hget. by destruct up.
Qed.

Lemma SetDeploymentReplicas_bad_body s r up namespace deployment d cause :
  handlers.parseNamespaceAndDeploymentNameFromURL r = (namespace, deployment) →
  client.Get s {| client.Namespace := namespace; client.Name := deployment |}
    = inr d →
  json.Decode (http.Body r) = inl cause →
  serve (handlers.SetDeploymentReplicas r) s up
  = answered s
      [client.CallGet {| client.Namespace := namespace; client.Name := deployment |}]
      400 [APIErrorDoc ("Error parsing request body: " +:+ cause)] up.
Proof.
  intros Hparse Hget Hdec. unfold handlers.SetDeploymentReplicas.
  rewrite Hparse. step_handler. rewrite Hget, Hdec. by destruct up.
Qed.

Lemma SetDeploymentReplicas_invalid s r up namespace deployment d rep why :
  handlers.parseNamespaceAndDeploymentNameFromURL r = (namespace, deployment) →
  client.Get s {| client.Namespace := namespace; client.Name := deployment |}
    = inr d →
  json.Decode (http.Body r) = inr rep →
  handlers.Validate rep = Some why →
  serve (handlers.SetDeploymentReplicas r) s up
  = answered s
      [client.CallGet {| client.Namespace := namespace; client.Name := deployment |}]
      400 [APIErrorDoc ("Validation error: " +:+ why)] up.
Proof.
  intros Hparse Hget Hdec Hval. unfold handlers.SetDeploymentReplicas.
  rewrite Hparse. step_handler. rewrite Hget, Hdec, Hval. by destruct up.
Qed.

Lemma SetDeploymentReplicas_patch_failed s r up namespace deployment d rep s' err :
  handlers.parseNamespaceAndDeploymentNameFromURL r = (namespace, deployment) →
  client.Get s {| client.Namespace := namespace; client.Name := deployment |}
    = inr d →
  json.Decode (http.Body r) = inr rep →
  handlers.Validate rep = None →
  client.DoPatch s (appsv1.setReplicas d (handlers.Replicas_ rep)) (client.MergeFrom d)
    = (s', inl err) →
  serve (handlers.SetDeploymentReplicas r) s up
  = answered s'
      [client.CallGet {| client.Namespace := namespace; client.Name := deployment |};
       client.CallPatch (appsv1.setReplicas d (handlers.Replicas_ rep)) (client.MergeFrom d)]
      500 [APIErrorDoc (handlers.patchFailedMessage deployment namespace)] up.
Proof.
  intros Hparse Hget Hdec Hval Hpatch. unfold handlers.SetDeploymentReplicas.
  rewrite Hparse. step_handler. rewrite Hget, Hdec, Hval. simpl.
  rewrite Hpatch. by destruct up.
Qed.

Lemma SetDeploymentReplicas_patched s r up namespace deployment d rep s' d' :
  handlers.parseNamespaceAndDeploymentNameFromURL r = (namespace, deployment) →
  client.Get s {| client.Namespace := namespace; client.Name := deployment |}
    = inr d →
  json.Decode (http.Body r) = inr rep →
  handlers.Validate rep = None →
  client.DoPatch s (appsv1.setReplicas d (handlers.Replicas_ rep)) (client.MergeFrom d)
    = (s', inr d') →
  serve (handlers.SetDeploymentReplicas r) s up
  = answered s'
      [client.CallGet {| client.Namespace := namespace; client.Name := deployment |};
       client.CallPatch (appsv1.setReplicas d (handlers.Replicas_ rep)) (client.MergeFrom d)]
      200 [ReplicaViewDoc deployment namespace (appsv1.Replicas (appsv1.Spec d'))] up.
Proof.
  intros Hparse Hget Hdec Hval Hpatch. unfold handlers.SetDeploymentReplicas.
  rewrite Hparse. step_handler. rewrite Hget, Hdec, Hval. simpl.
  rewrite Hpatch. by destruct up.
Qed.

End DeploymentsPaths.

(** ** The two stores against what the handlers rely on *)

Lemma memstore_Get_inr (s : memstore.Store) k d :
  memstore.Get s k = inr d ↔
  client.Name k ≠ "" ∧ ∃ i, list_find (memstore.named k) s = Some (i, d).
Proof.
  unfold memstore.Get. destruct (decide (client.Name k = "")) as [E|E].
  - split; [done | by intros [? _]].
  - destruct (list_find (memstore.named k) s) as [[i x]|] eqn:F.
    + split.
      * intros [= <-]. eauto.
      * intros [_ [j [= _ ->]]]. done.
    + split; [done | by intros [_ [? ?]]].
Qed.

(** Replacing the first object under a key by another object under that
    key keeps it the first one. *)
Lemma list_find_named_insert (s : memstore.Store) k i d d' :
  list_find (memstore.named k) s = Some (i, d) →
  memstore.named k d' →
  list_find (memstore.named k) (<[i := d']> s) = Some (i, d').
Proof.
  intros Hfind Hd'. apply list_find_Some in Hfind as (Hi & _ & Hbefore).
  apply list_find_Some. split_and!.
  - apply list_lookup_insert_eq. by eapply lookup_lt_Some.
  - done.
  - intros j y Hj Hlt. unfold memstore.Store in *. rewrite list_lookup_insert_ne in Hj by lia. eauto.
Qed.

Lemma memstore_applyDiff_replicas (base : appsv1.Deployment) r :
  memstore.applyDiff (memstore.mergeDiff (appsv1.setReplicas base r) base) base
  = appsv1.setReplicas base r.
Proof.
  unfold memstore.mergeDiff. simpl. case_decide as E; simpl; [|done].
  destruct base as [meta [r0]]. simpl in *. by subst.
Qed.

Lemma memstore_List_all (s : memstore.Store) dl :
  client.List s [] = inr dl → appsv1.Items dl = s.
Proof. by intros [= <-]. Qed.

Lemma memstore_List_InNamespace (s : memstore.Store) ns dl :
  ns ≠ "" →
  client.List s [client.InNamespace ns] = inr dl →
  appsv1.Items dl = filter (λ d, appsv1.Namespace d = ns) s.
Proof.
  intros Hns. simpl. unfold memstore.List.
  rewrite decide_False by done. by intros [= <-].
Qed.

Lemma memstore_Get_key (s : memstore.Store) k d :
  client.Get s k = inr d → client.ObjectKeyFromObject d = k.
Proof.
  intros [_ [i Hfind]]%memstore_Get_inr.
  by apply list_find_Some in Hfind as (_ & ? & _).
Qed.

Lemma memstore_Get_unnamed (s : memstore.Store) ns :
  ∃ err, client.Get s {| client.Namespace := ns; client.Name := "" |} = inl err.
Proof. by exists "resource name may not be empty". Qed.

(** The in-memory store reads its own writes: the object returned from a
    patch of the replica count carries the count, and the lookup that
    follows returns that object. *)
Lemma memstore_Patch_replicas (s : memstore.Store) k base r s' d' :
  client.Get s k = inr base →
  client.DoPatch s (appsv1.setReplicas base r) (client.MergeFrom base)
    = (s', inr d') →
  appsv1.Replicas (appsv1.Spec d') = r ∧ client.Get s' k = inr d'.
Proof.
  intros Hget. simpl.
  apply memstore_Get_inr in Hget as [Hname [i Hfind]].
  assert (Hk : memstore.named k base)
    by (by apply list_find_Some in Hfind as (_ & ? & _)).
  unfold memstore.DoPatch.
  replace (client.ObjectKeyFromObject (appsv1.setReplicas base r)) with k
    by (by rewrite <- Hk).
  rewrite decide_False by (by rewrite <- Hk in Hname). rewrite Hfind.
  rewrite memstore_applyDiff_replicas. intros [= <- <-]. split; [done|].
  apply memstore_Get_inr. split; [done|]. exists i.
  by apply (list_find_named_insert _ _ _ base).
Qed.

#[global] Instance memstore_list_contract : ListContract memstore.Store :=
  {| objects := λ s, s;
     List_all := memstore_List_all;
     List_InNamespace := memstore_List_InNamespace |}.

#[global] Instance memstore_lookup_contract : LookupContract memstore.Store :=
  {| Get_unnamed := memstore_Get_unnamed |}.

(** Through the cache the listing and the lookup are those of the cache. *)
#[global] Instance cachestore_list_contract : ListContract cachestore.Store :=
  {| objects := cachestore.cache;
     List_all := λ s, memstore_List_all (cachestore.cache s);
     List_InNamespace := λ s, memstore_List_InNamespace (cachestore.cache s) |}.

#[global] Instance cachestore_lookup_contract : LookupContract cachestore.Store :=
  {| Get_unnamed := λ s, memstore_Get_unnamed (cachestore.cache s) |}.

(** ** The deployments handlers *)

Section DeploymentsClaims.
Context {Store : Type} `{Hclient : !client.Client Store}
        `{Hjson : !json.Unmarshal handlers.Replicas}.
Implicit Types (s : Store) (r : http.Request) (up : bool).

(** Every path through [SetDeploymentReplicas]: the lookup fails; the body
    does not decode; the decoded value is invalid; the patch fails; the
    patch succeeds. *)
Lemma SetDeploymentReplicas_cases s r up namespace deployment :
  handlers.parseNamespaceAndDeploymentNameFromURL r = (namespace, deployment) →
  let key := {| client.Namespace := namespace; client.Name := deployment |} in
  let wd := serve (handlers.SetDeploymentReplicas r) s up in
  (∃ err, client.Get s key = inl err ∧
     wd = answered s [client.CallGet key] 404
            [APIErrorDoc (handlers.notFoundMessage deployment namespace)] up)
  ∨ (∃ d cause, client.Get s key = inr d ∧ json.Decode (http.Body r) = inl cause ∧
     wd = answered s [client.CallGet key] 400
            [APIErrorDoc ("Error parsing request body: " +:+ cause)] up)
  ∨ (∃ d rep why, client.Get s key = inr d ∧ json.Decode (http.Body r) = inr rep ∧
     handlers.Validate rep = Some why ∧
     wd = answered s [client.CallGet key] 400
            [APIErrorDoc ("Validation error: " +:+ why)] up)
  ∨ (∃ d rep s' res, client.Get s key = inr d ∧ json.Decode (http.Body r) = inr rep ∧
     handlers.Validate rep = None ∧
     client.DoPatch s (appsv1.setReplicas d (handlers.Replicas_ rep)) (client.MergeFrom d)
       = (s', res) ∧
     wd = answered s'
            [client.CallGet key;
             client.CallPatch (appsv1.setReplicas d (handlers.Replicas_ rep))
                              (client.MergeFrom d)]
            (match res with inl _ => 500 | inr _ => 200 end)
            [match res with
             | inl _ => APIErrorDoc (handlers.patchFailedMessage deployment namespace)
             | inr d' => ReplicaViewDoc deployment namespace
                           (appsv1.Replicas (appsv1.Spec d'))
             end] up).
Proof.
  intros Hparse key wd. subst wd.
  destruct (client.Get s key) as [err|d] eqn:Hget.
  { left. exists err. split; [done|]. by eapply SetDeploymentReplicas_not_found. }
  right. destruct (json.Decode (http.Body r)) as [cause|rep] eqn:Hdec.
  { left. exists d, cause. split_and!; try done.
    by eapply SetDeploymentReplicas_bad_body. }
  right. destruct (handlers.Validate rep) as [why|] eqn:Hval.
  { left. exists d, rep, why. split_and!; try done.
    by eapply SetDeploymentReplicas_invalid. }
  right.
  destruct (client.DoPatch s (appsv1.setReplicas d (handlers.Replicas_ rep))
              (client.MergeFrom d)) as [s' res] eqn:Hpatch.
  exists d, rep, s', res. split_and!; try done.
  destruct res as [err|d'].
  - by eapply SetDeploymentReplicas_patch_failed.
  - by eapply SetDeploymentReplicas_patched.
Qed.

(** C1. A get-replicas (GET) or set-replicas (PUT) request whose target
    deployment cannot be retrieved, for whatever reason, is answered 404
    with the body [{"message": "Error getting deployment <deployment> in
    namespace <namespace>"}], for the names parsed from the URL; status
    and message are the same for both methods (and the store is left as
    it was). *)
Theorem C1_lookup_failure_is_404 s r up namespace deployment err :
  http.Method r = http.MethodGet ∨ http.Method r = http.MethodPut →
  handlers.parseNamespaceAndDeploymentNameFromURL r = (namespace, deployment) →
  client.Get s {| client.Namespace := namespace; client.Name := deployment |}
    = inl err →
  let wd := serve (main.replicasRoute r) s up in
  status wd = Some 404
  ∧ body wd = delivered up
      [APIErrorDoc ("Error getting deployment " +:+ deployment
                    +:+ " in namespace " +:+ namespace)]
  ∧ store wd = s.
Proof.
  intros Hmethod Hparse Hget wd. subst wd.
  unfold main.replicasRoute, main.loggingMiddleware.
  destruct Hmethod as [Hm|Hm]; rewrite Hm.
  - rewrite decide_True by done.
    by rewrite (GetDeploymentReplicas_not_found _ _ _ _ _ _ Hparse Hget).
  - rewrite decide_False by done. rewrite decide_True by done.
    by rewrite (SetDeploymentReplicas_not_found _ _ _ _ _ _ Hparse Hget).
Qed.

(** C2. For a set-replicas request that reaches validation (the target
    exists and the body decodes), presence is checked before sign: with
    [replicas] absent the answer is 400 with "Validation error: replicas
    field is required", with [replicas] present and negative it is 400
    with "Validation error: replicas field must be greater than or equal
    to 0"; the "required" verdict depends on presence alone, and the sign
    verdict is reached only for a present value. *)
Theorem C2_validation_presence_before_sign s r up namespace deployment d rep :
  handlers.parseNamespaceAndDeploymentNameFromURL r = (namespace, deployment) →
  client.Get s {| client.Namespace := namespace; client.Name := deployment |}
    = inr d →
  json.Decode (http.Body r) = inr rep →
  let wd := serve (handlers.SetDeploymentReplicas r) s up in
  (handlers.Replicas_ rep = None →
     status wd = Some 400 ∧
     body wd = delivered up
       [APIErrorDoc "Validation error: replicas field is required"])
  ∧ (∀ n, handlers.Replicas_ rep = Some n → n < 0 →
     status wd = Some 400 ∧
     body wd = delivered up
       [APIErrorDoc
          "Validation error: replicas field must be greater than or equal to 0"])
  ∧ (handlers.Validate rep = Some "replicas field is required"
     ↔ handlers.Replicas_ rep = None)
  ∧ (handlers.Validate rep
       = Some "replicas field must be greater than or equal to 0"
     ↔ ∃ n, handlers.Replicas_ rep = Some n ∧ n < 0).
Proof.
  intros Hparse Hget Hdec wd. subst wd. split_and!.
  - intros Hnone.
    rewrite (SetDeploymentReplicas_invalid _ _ _ _ _ _ _
               "replicas field is required" Hparse Hget Hdec); [done|].
    unfold handlers.Validate. by rewrite Hnone.
  - intros n Hsome Hneg.
    rewrite (SetDeploymentReplicas_invalid _ _ _ _ _ _ _
               "replicas field must be greater than or equal to 0"
               Hparse Hget Hdec); [done|].
    unfold handlers.Validate. rewrite Hsome.
    by destruct (Z.ltb_spec n 0); [|lia].
  - unfold handlers.Validate. destruct (handlers.Replicas_ rep) as [n|].
    + by destruct (n <? 0).
    + done.
  - unfold handlers.Validate. destruct (handlers.Replicas_ rep) as [n|].
    + destruct (Z.ltb_spec n 0); split; try done.
      * intros _. eauto.
      * intros [m [[= <-] ?]]. lia.
    + split; [done | by intros [? [? ?]]].
Qed.

(** C3. Set-replicas looks the target up before it touches the request
    body: when the lookup fails the answer is the 404 not-found body,
    whatever the body of the request is (the client was asked once, for
    the lookup, and every request on the same URL gets the same answer);
    a 400 is only ever sent when the target deployment exists. *)
Theorem C3_lookup_before_body s r up namespace deployment :
  handlers.parseNamespaceAndDeploymentNameFromURL r = (namespace, deployment) →
  let key := {| client.Namespace := namespace; client.Name := deployment |} in
  let wd := serve (handlers.SetDeploymentReplicas r) s up in
  (∀ err, client.Get s key = inl err →
     status wd = Some 404
     ∧ body wd = delivered up
         [APIErrorDoc ("Error getting deployment " +:+ deployment
                       +:+ " in namespace " +:+ namespace)]
     ∧ calls wd = [client.CallGet key]
     ∧ ∀ r', http.URL r' = http.URL r →
         serve (handlers.SetDeploymentReplicas r') s up = wd)
  ∧ (status wd = Some 400 → ∃ d, client.Get s key = inr d).
Proof.
  intros Hparse key wd. subst wd. split.
  - intros err Hget.
    rewrite (SetDeploymentReplicas_not_found _ _ _ _ _ _ Hparse Hget).
    split_and!; try done.
    intros r' Hurl. eapply SetDeploymentReplicas_not_found; [|done].
    unfold handlers.parseNamespaceAndDeploymentNameFromURL in *.
    by rewrite Hurl.
  - intros H400. destruct (client.Get s key) as [err|d] eqn:Hget; [|eauto].
    by rewrite (SetDeploymentReplicas_not_found _ _ _ _ _ _ Hparse Hget) in H400.
Qed.

(** C8. When the store's list operation fails, the list handler answers
    500 and writes no body (and sets no header) at all, whereas every
    error answer of the
    get-replicas and set-replicas handlers carries a [{"message": ...}]
    body. *)
Theorem C8_list_failure_is_bare_500 s r up opts err :
  calls (serve (handlers.ListDeployments r) s up) = [client.CallList opts] →
  client.List s opts = inl err →
  let wd := serve (handlers.ListDeployments r) s up in
  status wd = Some 500 ∧ body wd = [] ∧ http.Header (writer wd) = ∅
  ∧ (∀ r', status (serve (handlers.GetDeploymentReplicas r') s true) ≠ Some 200 →
       ∃ m, body (serve (handlers.GetDeploymentReplicas r') s true) = [APIErrorDoc m])
  ∧ (∀ r', status (serve (handlers.SetDeploymentReplicas r') s true) ≠ Some 200 →
       ∃ m, body (serve (handlers.SetDeploymentReplicas r') s true) = [APIErrorDoc m]).
Proof.
  intros Hcalls Hlist wd. subst wd. revert Hcalls.
  rewrite ListDeployments_run.
  set (opts' := if decide (_ ≠ "") then _ else _).
  intros Hcalls.
  assert (opts' = opts) as ->.
  { by destruct (client.List s opts'); simpl in Hcalls; injection Hcalls. }
  rewrite Hlist. split_and!.
  - done.
  - by destruct up.
  - done.
  - intros r'.
    destruct (handlers.parseNamespaceAndDeploymentNameFromURL r')
      as [namespace deployment] eqn:Hparse.
    destruct (client.Get s {| client.Namespace := namespace;
                              client.Name := deployment |}) as [e|d] eqn:Hget.
    + rewrite (GetDeploymentReplicas_not_found _ _ _ _ _ _ Hparse Hget). eauto.
    + by rewrite (GetDeploymentReplicas_found _ _ _ _ _ _ Hparse Hget).
  - intros r'.
    destruct (handlers.parseNamespaceAndDeploymentNameFromURL r')
      as [namespace deployment] eqn:Hparse.
    destruct (SetDeploymentReplicas_cases s r' true _ _ Hparse)
      as [(e & _ & ->)|[(d & c & _ & _ & ->)|[(d & rep & why & _ & _ & _ & ->)
         |(d & rep & s' & res & _ & _ & _ & _ & ->)]]]; eauto.
    destruct res; [eauto | done].
Qed.

(** C10. Set-replicas is all-or-nothing before the patch: on a 404
    (not found) or a 400 (parse error, validation error) answer no patch
    was issued and the store is as it was; and a patch is issued only
    after lookup, decoding and validation have succeeded, as the second
    and last call on the client. *)
Theorem C10_no_patch_before_validation s r up namespace deployment :
  handlers.parseNamespaceAndDeploymentNameFromURL r = (namespace, deployment) →
  let key := {| client.Namespace := namespace; client.Name := deployment |} in
  let wd := serve (handlers.SetDeploymentReplicas r) s up in
  (status wd = Some 404 ∨ status wd = Some 400 →
     store wd = s ∧ forallb (λ c, negb (client.isPatch c)) (calls wd) = true)
  ∧ (∀ obj p, client.CallPatch obj p ∈ calls wd →
     ∃ d rep,
       client.Get s key = inr d
       ∧ json.Decode (http.Body r) = inr rep
       ∧ handlers.Validate rep = None
       ∧ obj = appsv1.setReplicas d (handlers.Replicas_ rep)
       ∧ p = client.MergeFrom d
       ∧ calls wd = [client.CallGet key; client.CallPatch obj p])
  ∧ (status wd = Some 200 ∨ status wd = Some 400
     ∨ status wd = Some 404 ∨ status wd = Some 500).
Proof.
  intros Hparse key wd. subst wd.
  destruct (SetDeploymentReplicas_cases s r up _ _ Hparse)
    as [(e & Hget & ->)|[(d & c & Hget & Hdec & ->)
       |[(d & rep & why & Hget & Hdec & Hval & ->)
       |(d & rep & s' & res & Hget & Hdec & Hval & Hpatch & ->)]]];
    fold key; (split_and!; [| |try destruct res; cbv [status answered writer http.Code]; tauto]).
  - done.
  - intros obj p [=]%list_elem_of_singleton.
  - done.
  - intros obj p [=]%list_elem_of_singleton.
  - done.
  - intros obj p [=]%list_elem_of_singleton.
  - destruct res; simpl; intros [[=]|[=]].
  - intros obj p Hin. exists d, rep.
    apply elem_of_cons in Hin as [[=]|Hin].
    apply list_elem_of_singleton in Hin as [= -> ->]. done.
Qed.

End DeploymentsClaims.

(** ** The deployments handlers and the answers of the store *)

Section StoreClaims.
Context {Store : Type} `{Hclient : !client.Client Store}
        `{Hlisting : !ListContract Store} `{Hnamed : !LookupContract Store}
        `{Hjson : !json.Unmarshal handlers.Replicas}.
Implicit Types (s : Store) (r : http.Request) (up : bool).

(** C5, amended. The list is scoped by the [namespace] parameter when its
    (first) value is not empty: the answer is then exactly the store's
    deployments of that namespace; when the parameter is absent or empty
    the answer spans all namespaces. Either way each element is the
    [{name, namespace}] summary and the store's order is kept as it is. *)
Theorem C5_list_scoped_by_nonempty_namespace s r up :
  let namespace := url.Get (url.Query (http.URL r)) "namespace" in
  let wd := serve (handlers.ListDeployments r) s up in
  (namespace ≠ "" →
   ∀ dl, client.List s [client.InNamespace namespace] = inr dl →
     status wd = Some 200
     ∧ body wd = delivered up
         [json.Arr (map DeploymentSummaryDoc
            (filter (λ d, appsv1.Namespace d = namespace) (objects s)))])
  ∧ (namespace = "" →
     ∀ dl, client.List s [] = inr dl →
       status wd = Some 200
       ∧ body wd = delivered up [json.Arr (map DeploymentSummaryDoc (objects s))]).
Proof.
  intros namespace wd. subst wd. rewrite ListDeployments_run. fold namespace.
  split.
  - intros Hns dl Hlist. rewrite decide_True by done. rewrite Hlist.
    by rewrite (List_InNamespace _ _ _ Hns Hlist).
  - intros Hns dl Hlist. rewrite decide_False by (by intros []).
    rewrite Hlist. by rewrite (List_all _ _ Hlist).
Qed.


(** C7. A get-replicas or set-replicas request whose path has fewer than
    four slash-separated segments resolves both names to the empty
    string; the lookup under them fails, and the answer is the 404
    not-found body with the empty names in it, never a 400. *)
Theorem C7_short_path_is_404 s r up :
  (length (strings.Split (url.Path (http.URL r)) "/"%char) < 4)%nat →
  http.Method r = http.MethodGet ∨ http.Method r = http.MethodPut →
  let wd := serve (main.replicasRoute r) s up in
  handlers.parseNamespaceAndDeploymentNameFromURL r = ("", "")
  ∧ (∃ err, client.Get s {| client.Namespace := ""; client.Name := "" |} = inl err)
  ∧ status wd = Some 404
  ∧ body wd = delivered up
      [APIErrorDoc "Error getting deployment  in namespace "]
  ∧ status wd ≠ Some 400.
Proof.
  intros Hlen Hmethod wd. subst wd.
  pose proof (parse_short r Hlen) as Hparse.
  destruct (Get_unnamed s "") as [err Hget].
  split; [done|]. split; [eauto|].
  unfold main.replicasRoute, main.loggingMiddleware.
  destruct Hmethod as [Hm|Hm]; rewrite Hm.
  - rewrite decide_True by done.
    by rewrite (GetDeploymentReplicas_not_found _ _ _ _ _ _ Hparse Hget).
  - rewrite decide_False by done. rewrite decide_True by done.
    by rewrite (SetDeploymentReplicas_not_found _ _ _ _ _ _ Hparse Hget).
Qed.

End StoreClaims.

(** ** The health handler *)

(** C4. Every run of the health handler ends in exactly one of the four
    outcomes, decided in this order: upstream error, 503 "Error: <cause>";
    body unreadable, 500 "Error reading response: <cause>"; body "ok",
    200 "ok"; any other body, 503 "unhealthy: <raw body>". The answer is
    the [{"status": ...}] document of that outcome, as JSON content. *)
Theorem C4_health_four_outcomes (h : handlers.HealthzHandler)
    (r : http.Request) (up : bool) :
  let res := handlers.Client h "/healthz" in
  let w := (handlers.ServeHTTP h r (http.NewWriter up)).2 in
  ∃ code st,
    HealthOutcome res code st
    ∧ (∀ code' st', HealthOutcome res code' st' → code' = code ∧ st' = st)
    ∧ http.Code w = Some code
    ∧ http.Sent w = delivered up [HealthStatusDoc st]
    ∧ http.Header w !! "Content-Type" = Some "application/json".
Proof.
  intros res w. subst w. unfold handlers.ServeHTTP. fold res. clearbody res.
  destruct (rest.Error res) as [err|] eqn:Herr.
  { exists 503, ("Error: " +:+ err). split_and!.
    - by constructor.
    - intros code' st' Hout. inversion Hout; split; congruence.
    - step_handler. by destruct up.
    - step_handler. by destruct up.
    - step_handler. by destruct up. }
  destruct (rest.Raw res) as [raw [err|]] eqn:Hraw.
  { exists 500, ("Error reading response: " +:+ err). split_and!.
    - by econstructor.
    - intros code' st' Hout. inversion Hout; split; congruence.
    - step_handler. by destruct up.
    - step_handler. by destruct up.
    - step_handler. by destruct up. }
  destruct (decide (raw = "ok")) as [->|Hne].
  { exists 200, "ok". split_and!.
    - by constructor.
    - intros code' st' Hout. inversion Hout; split; congruence.
    - step_handler. by destruct up.
    - step_handler. by destruct up.
    - step_handler. by destruct up. }
  exists 503, ("unhealthy: " +:+ raw). split_and!.
  - by constructor.
  - intros code' st' Hout. inversion Hout; split; congruence.
  - step_handler. by destruct up.
  - step_handler. by destruct up.
  - step_handler. by destruct up.
Qed.

(** ** The TLS configuration *)

(** C9. When startup gets past the TLS setup, the configuration presents
    the loaded server certificate, requires and verifies client
    certificates against the pool loaded from the CA file, and has TLS 1.3,
    the strongest supported version, as its minimum: a client below it is
    turned away, and a client goes on exactly when it presents a
    certificate that verifies against that pool. *)
Theorem C9_tls_requires_verified_clients_and_tls13 {Certificate CertPool : Type}
    (LoadX509KeyPair : string → string → error + Certificate)
    (ReadFile : string → error + string)
    (NewCertPool : CertPool)
    (AppendCertsFromPEM : CertPool → string → CertPool)
    (verify : CertPool → Certificate → bool)
    (serverCert certKey caCert : string)
    (cfg : tls.Config Certificate CertPool) :
  main.tlsConfig LoadX509KeyPair ReadFile NewCertPool AppendCertsFromPEM
    serverCert certKey caCert = main.Ready cfg →
  ∃ cert pem,
    LoadX509KeyPair serverCert certKey = inr cert
    ∧ ReadFile caCert = inr pem
    ∧ tls.Certificates cfg = [cert]
    ∧ tls.ClientAuth cfg = tls.RequireAndVerifyClientCert
    ∧ tls.ClientCAs cfg = AppendCertsFromPEM NewCertPool pem
    ∧ tls.MinVersion cfg = tls.VersionTLS13
    ∧ (∀ v, v ∈ tls.supportedVersions → v ≤ tls.MinVersion cfg)
    ∧ (∀ v, v < tls.VersionTLS13 → tls.versionAccepted cfg v = false)
    ∧ tls.versionAccepted cfg tls.VersionTLS13 = true
    ∧ (∀ crt, tls.clientCertAccepted verify cfg crt = true
         ↔ ∃ x, crt = Some x
                ∧ verify (AppendCertsFromPEM NewCertPool pem) x = true).
Proof.
  unfold main.tlsConfig. intros Hcfg.
  destruct (LoadX509KeyPair serverCert certKey) as [e|cert]; [done|].
  destruct (ReadFile caCert) as [e|pem]; [done|].
  injection Hcfg as <-. exists cert, pem. split_and!; try done.
  - intros v Hv. unfold tls.supportedVersions in Hv. simpl.
    repeat (apply elem_of_cons in Hv as [->|Hv]); [done..|].
    by apply elem_of_nil in Hv.
  - intros v Hv. unfold tls.versionAccepted. simpl.
    apply andb_false_intro2. by apply Z.leb_gt.
  - intros [x|]; simpl.
    + split; [eauto | by intros (? & [= <-] & ?)].
    + split; [done | by intros (? & ? & ?)].
Qed.

(** ** The handlers on the data of the tests *)

Section Scenarios.
#[local] Existing Instance memstore.test_Unmarshal.

(** The expectations of [deployments_test.go], as JSON documents. *)
Example test_ListDeployments_all_namespaces :
  serve (main.deploymentsRoute testdata.listAll) testdata.twoNamespaces true
  = answered testdata.twoNamespaces [client.CallList []] 200
      [json.Arr
         [json.Obj [("name", json.Str "test-deployment");
                    ("namespace", json.Str "test-namespace")];
          json.Obj [("name", json.Str "test-deployment2");
                    ("namespace", json.Str "test-namespace2")]]] true.
Proof. reflexivity. Qed.

Example test_GetDeploymentReplicas :
  let wd := serve (main.replicasRoute testdata.getReplicas) testdata.oneDeployment true in
  status wd = Some 200
  ∧ body wd = [json.Obj [("name", json.Str "test-deployment");
                         ("namespace", json.Str "test-namespace");
                         ("replicas", json.Num 3)]].
Proof. by vm_compute. Qed.

Example test_SetDeploymentReplicas :
  let wd := serve (main.replicasRoute testdata.putReplicas7) testdata.oneDeployment true in
  status wd = Some 200
  ∧ body wd = [json.Obj [("name", json.Str "test-deployment");
                         ("namespace", json.Str "test-namespace");
                         ("replicas", json.Num 7)]]
  ∧ store wd = [testdata.deployment "test-namespace" "test-deployment" (Some 7)].
Proof. by vm_compute. Qed.

Example test_SetDeploymentReplicas_parse_error :
  let wd := serve (main.replicasRoute testdata.putFooBarGarbage) testdata.fooBar true in
  status wd = Some 400
  ∧ body wd = [APIErrorDoc
      "Error parsing request body: invalid character 'r' looking for beginning of value"].
Proof. by vm_compute. Qed.

Example test_method_not_allowed :
  serve (main.replicasRoute
           (testdata.request "DELETE" "/deployments/foo/bar/replicas" ∅ ""))
        testdata.fooBar true
  = answered testdata.fooBar [] 405 [] true.
Proof. reflexivity. Qed.

Example test_healthz_unhealthy :
  let h := {| handlers.Client := λ _,
                {| rest.Error := None; rest.Raw := ("etcd down", None) |} |} in
  let w := (handlers.ServeHTTP h testdata.listAll http.NewRecorder).2 in
  http.Code w = Some 503 ∧ http.Sent w = [HealthStatusDoc "unhealthy: etcd down"].
Proof. by vm_compute. Qed.

Lemma C1_witness :
  status (serve (main.replicasRoute testdata.putFooBar99) testdata.oneDeployment true)
    = Some 404
  ∧ body (serve (main.replicasRoute testdata.putFooBar99) testdata.oneDeployment true)
    = [APIErrorDoc "Error getting deployment bar in namespace foo"]
  ∧ store (serve (main.replicasRoute testdata.putFooBar99) testdata.oneDeployment true)
    = testdata.oneDeployment.
Proof.
  apply (C1_lookup_failure_is_404 testdata.oneDeployment testdata.putFooBar99
           true "foo" "bar" "not found");
    [by right | reflexivity | reflexivity].
Defined.

Lemma C2_witness :
  (status (serve (handlers.SetDeploymentReplicas testdata.putFooBarTypo)
             testdata.fooBar true) = Some 400
   ∧ body (serve (handlers.SetDeploymentReplicas testdata.putFooBarTypo)
             testdata.fooBar true)
     = [APIErrorDoc "Validation error: replicas field is required"])
  ∧ (status (serve (handlers.SetDeploymentReplicas testdata.putFooBarNegative)
               testdata.fooBar true) = Some 400
     ∧ body (serve (handlers.SetDeploymentReplicas testdata.putFooBarNegative)
               testdata.fooBar true)
       = [APIErrorDoc
            "Validation error: replicas field must be greater than or equal to 0"]).
Proof.
  split.
  - destruct (C2_validation_presence_before_sign testdata.fooBar
                testdata.putFooBarTypo true "foo" "bar"
                (testdata.deployment "foo" "bar" (Some 3))
                {| handlers.Replicas_ := None |}) as [Habsent _];
      [reflexivity..|].
    apply Habsent. reflexivity.
  - destruct (C2_validation_presence_before_sign testdata.fooBar
                testdata.putFooBarNegative true "foo" "bar"
                (testdata.deployment "foo" "bar" (Some 3))
                {| handlers.Replicas_ := Some (-1) |}) as [_ [Hnegative _]];
      [reflexivity..|].
    apply (Hnegative (-1)); [reflexivity | lia].
Defined.

Lemma C3_witness :
  status (serve (handlers.SetDeploymentReplicas testdata.putFooBarGarbage)
            testdata.oneDeployment true) = Some 404
  ∧ serve (handlers.SetDeploymentReplicas testdata.putFooBar99)
      testdata.oneDeployment true
    = serve (handlers.SetDeploymentReplicas testdata.putFooBarGarbage)
        testdata.oneDeployment true.
Proof.
  destruct (C3_lookup_before_body testdata.oneDeployment testdata.putFooBarGarbage
              true "foo" "bar") as [Hmissing _]; [reflexivity|].
  destruct (Hmissing "not found") as (H404 & _ & _ & Hsame); [reflexivity|].
  split; [exact H404 | apply Hsame; reflexivity].
Defined.

Lemma C5_witness :
  body (serve (handlers.ListDeployments testdata.listNamespace2)
          testdata.twoNamespaces true)
    = [json.Arr [DeploymentSummaryDoc
                   (testdata.deployment "test-namespace2" "test-deployment2" None)]]
  ∧ body (serve (handlers.ListDeployments testdata.listEmptyNamespace)
            testdata.twoNamespaces true)
    = [json.Arr (map DeploymentSummaryDoc testdata.twoNamespaces)].
Proof.
  split.
  - destruct (C5_list_scoped_by_nonempty_namespace testdata.twoNamespaces
                testdata.listNamespace2 true) as [Hscoped _].
    refine (proj2 (Hscoped _ _ _)); [by vm_compute | reflexivity].
  - destruct (C5_list_scoped_by_nonempty_namespace testdata.twoNamespaces
                testdata.listEmptyNamespace true) as [_ Hall].
    refine (proj2 (Hall _ _ _)); reflexivity.
Defined.

(** C5, as stated, fails on "/deployments?namespace=": the parameter is
    present, no deployment has the empty namespace, and yet both
    deployments of the store are listed. *)
Lemma C5_counterexample :
  url.Query (http.URL testdata.listEmptyNamespace) !! "namespace" = Some [""]
  ∧ ListSpecBody (url.Query (http.URL testdata.listEmptyNamespace))
      (objects testdata.twoNamespaces) = [json.Arr []]
  ∧ body (serve (handlers.ListDeployments testdata.listEmptyNamespace)
            testdata.twoNamespaces true)
    = [json.Arr (map DeploymentSummaryDoc testdata.twoNamespaces)]
  ∧ body (serve (handlers.ListDeployments testdata.listEmptyNamespace)
            testdata.twoNamespaces true)
    ≠ ListSpecBody (url.Query (http.URL testdata.listEmptyNamespace))
        (objects testdata.twoNamespaces).
Proof. split_and!; [reflexivity | reflexivity | reflexivity | by vm_compute]. Qed.



(** Once the cache has followed, the get reports the patched count. *)
Example test_get_after_sync :
  body (serve (handlers.GetDeploymentReplicas testdata.getReplicas)
          (cachestore.sync
             (store (serve (handlers.SetDeploymentReplicas testdata.putReplicas7)
                       testdata.inStep true))) true)
  = [ReplicaViewDoc "test-deployment" "test-namespace" (Some 7)].
Proof. reflexivity. Qed.

Lemma C7_witness :
  handlers.parseNamespaceAndDeploymentNameFromURL testdata.getShortPath = ("", "")
  ∧ (∃ err, client.Get testdata.oneDeployment
              {| client.Namespace := ""; client.Name := "" |} = inl err)
  ∧ status (serve (main.replicasRoute testdata.getShortPath)
              testdata.oneDeployment true) = Some 404
  ∧ body (serve (main.replicasRoute testdata.getShortPath)
            testdata.oneDeployment true)
    = [APIErrorDoc "Error getting deployment  in namespace "]
  ∧ status (serve (main.replicasRoute testdata.getShortPath)
              testdata.oneDeployment true) ≠ Some 400.
Proof.
  apply (C7_short_path_is_404 testdata.oneDeployment testdata.getShortPath true);
    [simpl; lia | by left].
Defined.

Lemma C8_witness :
  status (serve (handlers.ListDeployments (Hclient := testdata.brokenList)
                   testdata.listAll) testdata.twoNamespaces true) = Some 500
  ∧ body (serve (handlers.ListDeployments (Hclient := testdata.brokenList)
                   testdata.listAll) testdata.twoNamespaces true) = [].
Proof.
  destruct (C8_list_failure_is_bare_500 (Hclient := testdata.brokenList)
              testdata.twoNamespaces testdata.listAll true []
              "cache is not started") as (H500 & Hbare & _ & _);
    [reflexivity | reflexivity |].
  split; [exact H500 | exact Hbare].
Defined.

Lemma C9_witness :
  ∃ cfg,
    main.tlsConfig testdata.loadKeyPair testdata.readFile [] testdata.appendPEM
      "server.crt" "server.key" "ca.crt" = main.Ready cfg
    ∧ tls.Certificates cfg = ["server-cert"]
    ∧ tls.ClientAuth cfg = tls.RequireAndVerifyClientCert
    ∧ tls.ClientCAs cfg = ["ca-cert"]
    ∧ tls.MinVersion cfg = tls.VersionTLS13
    ∧ tls.versionAccepted cfg tls.VersionTLS12 = false
    ∧ tls.clientCertAccepted testdata.verifyIn cfg None = false.
Proof.
  eexists. split; [reflexivity|].
  destruct (C9_tls_requires_verified_clients_and_tls13 testdata.loadKeyPair
              testdata.readFile [] testdata.appendPEM testdata.verifyIn
              "server.crt" "server.key" "ca.crt" _ eq_refl)
    as (cert & pem & Hload & Hread & Hcerts & Hauth & Hcas & Hmin & _ & Hbelow & _ & Hclient).
  injection Hload as <-. injection Hread as <-.
  split_and!; [exact Hcerts | exact Hauth | exact Hcas | exact Hmin | |].
  - apply Hbelow. reflexivity.
  - reflexivity.
Defined.

Lemma C10_witness :
  store (serve (handlers.SetDeploymentReplicas testdata.putFooBarNegative)
           testdata.fooBar true) = testdata.fooBar
  ∧ forallb (λ c, negb (client.isPatch c))
      (calls (serve (handlers.SetDeploymentReplicas testdata.putFooBarNegative)
                testdata.fooBar true)) = true.
Proof.
  destruct (C10_no_patch_before_validation testdata.fooBar
              testdata.putFooBarNegative true "foo" "bar") as [Hkept _];
    [reflexivity|].
  apply Hkept. right. reflexivity.
Defined.

End Scenarios.

(** * More of the code *)

(** ** Paths and their segments *)

Lemma Split_no_separator (e : string) (sep : ascii) :
  strings.ContainsByte e sep = false → strings.Split e sep = [e].
Proof.
  induction e as [|c e IH]; simpl; [done|].
  intros [Hc He]%orb_false_elim. rewrite Hc. by rewrite (IH He).
Qed.

Lemma Split_segment (e rest : string) (sep : ascii) :
  strings.ContainsByte e sep = false →
  strings.Split (e +:+ String sep rest) sep = e :: strings.Split rest sep.
Proof.
  induction e as [|c e IH]; simpl.
  - intros _. by rewrite Ascii.eqb_refl.
  - intros [Hc He]%orb_false_elim. rewrite Hc. by rewrite (IH He).
Qed.

(** Splitting what was joined gives the segments back. *)
Lemma Split_Join (elems : list string) (sep : ascii) :
  elems ≠ [] →
  Forall (λ e, strings.ContainsByte e sep = false) elems →
  strings.Split (strings.Join elems sep) sep = elems.
Proof.
  intros Hne Hall. induction Hall as [|e rest He Hrest IH]; [done|].
  destruct rest as [|e' rest'].
  - simpl. by apply Split_no_separator.
  - change (strings.Join (e :: e' :: rest') sep)
      with (e +:+ String sep (strings.Join (e' :: rest') sep)).
    rewrite Split_segment by done. by rewrite IH.
Qed.

(** No segment of a split holds the separator. *)
Lemma Split_segments_clean (s : string) (sep : ascii) :
  Forall (λ e, strings.ContainsByte e sep = false) (strings.Split s sep).
Proof.
  induction s as [|c s IH]; simpl.
  - by repeat constructor.
  - destruct (Ascii.eqb c sep) eqn:Hc.
    + by constructor.
    + destruct (strings.Split s sep) as [|hd tl]; simpl.
      * repeat constructor. simpl. by rewrite Hc.
      * inversion IH as [|? ? Hhd Htl]; subst. constructor; [|done].
        simpl. by rewrite Hc.
Qed.

(** Joining the segments of a split gives the string back. *)
Lemma Join_Split (s : string) (sep : ascii) :
  strings.Join (strings.Split s sep) sep = s.
Proof.
  induction s as [|c s IH]; simpl; [done|].
  destruct (Ascii.eqb_spec c sep) as [->|Hc].
  - pose proof (Split_nonempty s sep) as Hne.
    destruct (strings.Split s sep) as [|hd tl] eqn:E; [done|].
    change (strings.Join ("" :: hd :: tl) sep)
      with (String sep (strings.Join (hd :: tl) sep)).
    by rewrite IH.
  - pose proof (Split_nonempty s sep) as Hne.
    destruct (strings.Split s sep) as [|hd tl] eqn:E; [done|].
    destruct tl as [|hd' tl'].
    + simpl in *. by rewrite IH.
    + change (strings.Join (String c hd :: hd' :: tl') sep)
        with (String c (strings.Join (hd :: hd' :: tl') sep)).
      by rewrite IH.
Qed.

(** Parses a path given as joined slash-free segments. *)
Ltac parse_joined Hpath Hclean :=
  unfold handlers.parseNamespaceAndDeploymentNameFromURL;
  rewrite Hpath, Split_Join by done;
  cbn [length];
  match goal with
  | |- context [Z.of_nat ?n <? 4] =>
      destruct (Z.ltb_spec (Z.of_nat n) 4); [lia | done]
  end.

(** X1. A path of at least four slash-free segments, joined by slashes,
    parses to its third and fourth segment, whatever the first two and the
    ones after the fourth are. *)
Theorem X1_parse_third_and_fourth_segment (r : http.Request)
    (first second namespace deployment : string) (more : list string) :
  url.Path (http.URL r)
    = strings.Join (first :: second :: namespace :: deployment :: more) "/"%char →
  Forall (λ e, strings.ContainsByte e "/"%char = false)
         (first :: second :: namespace :: deployment :: more) →
  handlers.parseNamespaceAndDeploymentNameFromURL r = (namespace, deployment).
Proof.
  intros Hpath Hclean. parse_joined Hpath Hclean.
Qed.

(** X2. The two names the parser returns never hold a slash. *)
Theorem X2_parsed_names_hold_no_slash (r : http.Request) :
  strings.ContainsByte (handlers.parseNamespaceAndDeploymentNameFromURL r).1 "/"%char
    = false
  ∧ strings.ContainsByte (handlers.parseNamespaceAndDeploymentNameFromURL r).2 "/"%char
    = false.
Proof.
  unfold handlers.parseNamespaceAndDeploymentNameFromURL.
  pose proof (Split_segments_clean (url.Path (http.URL r)) "/"%char) as Hclean.
  destruct (Z.of_nat _ <? 4); [done|]. simpl.
  rewrite Forall_lookup in Hclean. split.
  - destruct (strings.Split _ _ !! 2%nat) as [e|] eqn:E; [|done].
    exact (Hclean _ _ E).
  - destruct (strings.Split _ _ !! 3%nat) as [e|] eqn:E; [|done].
    exact (Hclean _ _ E).
Qed.

(** X4. [generateListDeploymentsResponse] gives one entry per item, in the
    order of the items, each with the name and namespace of its item. *)
Theorem X4_list_response_follows_items (dl : appsv1.DeploymentList) :
  length (handlers.generateListDeploymentsResponse dl) = length (appsv1.Items dl)
  ∧ ∀ (i : nat) d, appsv1.Items dl !! i = Some d →
      handlers.generateListDeploymentsResponse dl !! i
      = Some {| handlers.Name := appsv1.Name d;
                handlers.Namespace := appsv1.Namespace d |}.
Proof.
  rewrite generateListDeploymentsResponse_map. split.
  - by rewrite length_map.
  - intros i d Hi. change map with (@fmap list _) at 1.
    rewrite list_lookup_fmap. by rewrite Hi.
Qed.

(** ** More paths through the deployments handlers *)

Section MoreDeployments.
Context {Store : Type} `{Hclient : !client.Client Store}
        `{Hjson : !json.Unmarshal handlers.Replicas}.
Implicit Types (s : Store) (r : http.Request) (up : bool).

(** The replicas route reads the request through its method, the two
    parsed names and its body only. *)
Lemma replicasRoute_reads s r r' up :
  http.Method r' = http.Method r →
  http.Body r' = http.Body r →
  handlers.parseNamespaceAndDeploymentNameFromURL r'
    = handlers.parseNamespaceAndDeploymentNameFromURL r →
  serve (main.replicasRoute r') s up = serve (main.replicasRoute r) s up.
Proof.
  intros Hm Hb Hp.
  unfold main.replicasRoute, main.loggingMiddleware,
    handlers.GetDeploymentReplicas, handlers.SetDeploymentReplicas.
  by rewrite Hm, Hb, Hp.
Qed.

(** Every request on the replicas route is answered with one status, set
    before anything is written, whether or not the connection takes the
    body. *)
Lemma replicasRoute_answered s r :
  ∃ s' cs code docs, ∀ up,
    serve (main.replicasRoute r) s up = answered s' cs code docs up.
Proof.
  destruct (handlers.parseNamespaceAndDeploymentNameFromURL r)
    as [namespace deployment] eqn:Hparse.
  unfold main.replicasRoute, main.loggingMiddleware.
  destruct (decide (http.Method r = http.MethodGet)) as [Hget|Hget].
  { destruct (client.Get s {| client.Namespace := namespace;
                              client.Name := deployment |}) as [e|d] eqn:Hlookup.
    - do 4 eexists. intros up.
      by apply (GetDeploymentReplicas_not_found _ _ _ _ _ _ Hparse Hlookup).
    - do 4 eexists. intros up.
      by apply (GetDeploymentReplicas_found _ _ _ _ _ _ Hparse Hlookup). }
  destruct (decide (http.Method r = http.MethodPut)) as [Hput|Hput].
  2:{ exists s, [], 405, []. intros up. by destruct up. }
  destruct (client.Get s {| client.Namespace := namespace;
                            client.Name := deployment |}) as [e|d] eqn:Hlookup.
  { do 4 eexists. intros up.
    by apply (SetDeploymentReplicas_not_found _ _ _ _ _ _ Hparse Hlookup). }
  destruct (json.Decode (http.Body r)) as [cause|rep] eqn:Hdec.
  { do 4 eexists. intros up.
    by apply (SetDeploymentReplicas_bad_body _ _ _ _ _ _ _ Hparse Hlookup Hdec). }
  destruct (handlers.Validate rep) as [why|] eqn:Hval.
  { do 4 eexists. intros up.
    by apply (SetDeploymentReplicas_invalid _ _ _ _ _ _ _ _ Hparse Hlookup Hdec Hval). }
  destruct (client.DoPatch s (appsv1.setReplicas d (handlers.Replicas_ rep))
              (client.MergeFrom d)) as [s' [err|d']] eqn:Hpatch.
  - do 4 eexists. intros up.
    by apply (SetDeploymentReplicas_patch_failed _ _ _ _ _ _ _ _ _
                Hparse Hlookup Hdec Hval Hpatch).
  - do 4 eexists. intros up.
    by apply (SetDeploymentReplicas_patched _ _ _ _ _ _ _ _ _
                Hparse Hlookup Hdec Hval Hpatch).
Qed.

(** X3. On the replicas route only the method, the body and the third and
    fourth path segment count: two requests that agree on them are
    answered alike, whatever their first two segments, the segments after
    the fourth (a missing or different "replicas" suffix) and their query
    are. *)
Theorem X3_route_reads_two_segments s r r' up
    (first second first' second' namespace deployment : string)
    (more more' : list string) :
  http.Method r' = http.Method r →
  http.Body r' = http.Body r →
  url.Path (http.URL r)
    = strings.Join (first :: second :: namespace :: deployment :: more) "/"%char →
  url.Path (http.URL r')
    = strings.Join (first' :: second' :: namespace :: deployment :: more') "/"%char →
  Forall (λ e, strings.ContainsByte e "/"%char = false)
         (first :: second :: namespace :: deployment :: more) →
  Forall (λ e, strings.ContainsByte e "/"%char = false)
         (first' :: second' :: namespace :: deployment :: more') →
  serve (main.replicasRoute r') s up = serve (main.replicasRoute r) s up.
Proof.
  intros Hm Hb Hpath Hpath' Hclean Hclean'.
  apply replicasRoute_reads; [done..|].
  transitivity (namespace, deployment).
  - parse_joined Hpath' Hclean'.
  - symmetry. parse_joined Hpath Hclean.
Qed.

(** X5. Get-replicas on a deployment the store returns answers 200 with
    the names of the URL and the replica count of the object, [null] when
    the object has none; the store is only read, once. *)
Theorem X5_get_replicas_found s r up namespace deployment d :
  handlers.parseNamespaceAndDeploymentNameFromURL r = (namespace, deployment) →
  client.Get s {| client.Namespace := namespace; client.Name := deployment |}
    = inr d →
  let wd := serve (handlers.GetDeploymentReplicas r) s up in
  status wd = Some 200
  ∧ body wd = delivered up
      [json.Obj [("name", json.Str deployment);
                 ("namespace", json.Str namespace);
                 ("replicas",
                  match appsv1.Replicas (appsv1.Spec d) with
                  | Some n => json.Num n
                  | None => json.Null
                  end)]]
  ∧ store wd = s
  ∧ calls wd = [client.CallGet {| client.Namespace := namespace;
                                  client.Name := deployment |}].
Proof.
  intros Hparse Hget wd. subst wd.
  by rewrite (GetDeploymentReplicas_found _ _ _ _ _ _ Hparse Hget).
Qed.

(** X6. Set-replicas on an existing deployment with a body that does not
    decode answers 400 with "Error parsing request body: <cause>"; the
    store was read once and is left as it was. *)
Theorem X6_set_replicas_bad_body s r up namespace deployment d cause :
  handlers.parseNamespaceAndDeploymentNameFromURL r = (namespace, deployment) →
  client.Get s {| client.Namespace := namespace; client.Name := deployment |}
    = inr d →
  json.Decode (http.Body r) = inl cause →
  let wd := serve (handlers.SetDeploymentReplicas r) s up in
  status wd = Some 400
  ∧ body wd = delivered up
      [json.Obj [("message", json.Str ("Error parsing request body: " +:+ cause))]]
  ∧ store wd = s
  ∧ calls wd = [client.CallGet {| client.Namespace := namespace;
                                  client.Name := deployment |}].
Proof.
  intros Hparse Hget Hdec wd. subst wd.
  by rewrite (SetDeploymentReplicas_bad_body _ _ _ _ _ _ _ Hparse Hget Hdec).
Qed.

(** X7. A valid set-replicas request ([replicas] present and not
    negative, zero included) on an existing deployment issues exactly one
    patch: of the object that was read with only its replica count
    replaced, as a merge from the object that was read. *)
Theorem X7_set_replicas_patches_count_only s r up namespace deployment d n :
  handlers.parseNamespaceAndDeploymentNameFromURL r = (namespace, deployment) →
  client.Get s {| client.Namespace := namespace; client.Name := deployment |}
    = inr d →
  json.Decode (http.Body r) = inr {| handlers.Replicas_ := Some n |} →
  0 ≤ n →
  ∃ obj,
    calls (serve (handlers.SetDeploymentReplicas r) s up)
    = [client.CallGet {| client.Namespace := namespace; client.Name := deployment |};
       client.CallPatch obj (client.MergeFrom d)]
    ∧ appsv1.ObjectMeta obj = appsv1.ObjectMeta d
    ∧ appsv1.Replicas (appsv1.Spec obj) = Some n.
Proof.
  intros Hparse Hget Hdec Hn.
  assert (Hval : handlers.Validate {| handlers.Replicas_ := Some n |} = None).
  { unfold handlers.Validate. simpl. by destruct (Z.ltb_spec n 0); [lia|]. }
  exists (appsv1.setReplicas d (Some n)).
  destruct (client.DoPatch s (appsv1.setReplicas d (Some n)) (client.MergeFrom d))
    as [s' [err|d']] eqn:Hpatch.
  - by rewrite (SetDeploymentReplicas_patch_failed _ _ _ _ _ _ _ _ _
                  Hparse Hget Hdec Hval Hpatch).
  - by rewrite (SetDeploymentReplicas_patched _ _ _ _ _ _ _ _ _
                  Hparse Hget Hdec Hval Hpatch).
Qed.

(** X8. When the patch of a valid set-replicas request fails, the answer
    is 500 with "Error patching deployment <deployment> in namespace
    <namespace>" (the cause is not disclosed), and the store is in the
    state the failed patch left. *)
Theorem X8_set_replicas_patch_failure s r up namespace deployment d rep s' err :
  handlers.parseNamespaceAndDeploymentNameFromURL r = (namespace, deployment) →
  client.Get s {| client.Namespace := namespace; client.Name := deployment |}
    = inr d →
  json.Decode (http.Body r) = inr rep →
  handlers.Validate rep = None →
  client.DoPatch s (appsv1.setReplicas d (handlers.Replicas_ rep)) (client.MergeFrom d)
    = (s', inl err) →
  let wd := serve (handlers.SetDeploymentReplicas r) s up in
  status wd = Some 500
  ∧ body wd = delivered up
      [json.Obj [("message",
                  json.Str ("Error patching deployment " +:+ deployment
                            +:+ " in namespace " +:+ namespace))]]
  ∧ store wd = s'.
Proof.
  intros Hparse Hget Hdec Hval Hpatch wd. subst wd.
  by rewrite (SetDeploymentReplicas_patch_failed _ _ _ _ _ _ _ _ _
                Hparse Hget Hdec Hval Hpatch).
Qed.

(** X9. When the patch succeeds, the answer is 200 and reports the replica
    count of the object the store returned from the patch, with the names
    of the URL. *)
Theorem X9_set_replicas_reports_store_answer s r up namespace deployment d rep s' d' :
  handlers.parseNamespaceAndDeploymentNameFromURL r = (namespace, deployment) →
  client.Get s {| client.Namespace := namespace; client.Name := deployment |}
    = inr d →
  json.Decode (http.Body r) = inr rep →
  handlers.Validate rep = None →
  client.DoPatch s (appsv1.setReplicas d (handlers.Replicas_ rep)) (client.MergeFrom d)
    = (s', inr d') →
  let wd := serve (handlers.SetDeploymentReplicas r) s up in
  status wd = Some 200
  ∧ body wd = delivered up
      [json.Obj [("name", json.Str deployment);
                 ("namespace", json.Str namespace);
                 ("replicas",
                  match appsv1.Replicas (appsv1.Spec d') with
                  | Some n => json.Num n
                  | None => json.Null
                  end)]]
  ∧ store wd = s'.
Proof.
  intros Hparse Hget Hdec Hval Hpatch wd. subst wd.
  by rewrite (SetDeploymentReplicas_patched _ _ _ _ _ _ _ _ _
                Hparse Hget Hdec Hval Hpatch).
Qed.

(** X10. On the replicas route every method but GET and PUT is answered
    405 with no body, without a call on the store. *)
Theorem X10_other_methods_are_405 s r up :
  http.Method r ≠ http.MethodGet →
  http.Method r ≠ http.MethodPut →
  let wd := serve (main.replicasRoute r) s up in
  status wd = Some 405 ∧ body wd = [] ∧ calls wd = [] ∧ store wd = s.
Proof.
  intros Hget Hput wd. subst wd.
  unfold main.replicasRoute, main.loggingMiddleware.
  rewrite decide_False by done. rewrite decide_False by done.
  by step_handler.
Qed.

(** X11. A GET on the replicas route only reads: it makes one call on the
    store, the lookup of the parsed names, and never a patch. *)
Theorem X11_get_route_only_reads s r up :
  http.Method r = http.MethodGet →
  let wd := serve (main.replicasRoute r) s up in
  calls wd
  = [client.CallGet
       {| client.Namespace := (handlers.parseNamespaceAndDeploymentNameFromURL r).1;
          client.Name := (handlers.parseNamespaceAndDeploymentNameFromURL r).2 |}]
  ∧ store wd = s.
Proof.
  intros Hm wd. subst wd.
  unfold main.replicasRoute, main.loggingMiddleware.
  rewrite decide_True by done.
  destruct (handlers.parseNamespaceAndDeploymentNameFromURL r)
    as [namespace deployment] eqn:Hparse. simpl.
  destruct (client.Get s {| client.Namespace := namespace;
                            client.Name := deployment |}) as [e|d] eqn:Hlookup.
  - by rewrite (GetDeploymentReplicas_not_found _ _ _ _ _ _ Hparse Hlookup).
  - by rewrite (GetDeploymentReplicas_found _ _ _ _ _ _ Hparse Hlookup).
Qed.

(** X12. The list route does not look at the method, the path or the body
    of the request: it makes one list call, scoped by the first value of
    the [namespace] parameter when that is not empty, and leaves the store
    as it is. *)
Theorem X12_list_route_reads_namespace_only s r up :
  let namespace := url.Get (url.Query (http.URL r)) "namespace" in
  let wd := serve (main.deploymentsRoute r) s up in
  calls wd
  = [client.CallList
       (if decide (namespace = "") then [] else [client.InNamespace namespace])]
  ∧ store wd = s
  ∧ ∀ r', url.Get (url.Query (http.URL r')) "namespace" = namespace →
      serve (main.deploymentsRoute r') s up = wd.
Proof.
  intros namespace wd. subst wd.
  unfold main.deploymentsRoute, main.loggingMiddleware.
  rewrite ListDeployments_run. fold namespace. split_and!.
  - destruct (decide (namespace = "")) as [->|Hns].
    + rewrite decide_False by (by intros []).
      by destruct (client.List s []).
    + rewrite decide_True by done.
      by destruct (client.List s [client.InNamespace namespace]).
  - by destruct (client.List s _).
  - intros r' Hsame. rewrite ListDeployments_run. by rewrite Hsame.
Qed.

(** X13. The status of an answer does not depend on the connection: a
    write that fails leaves the status that was set first (the
    [WriteHeader(500)] that follows a failed encode comes too late), the
    calls and the store are the same, and nothing is delivered. *)
Theorem X13_status_survives_failed_write s r :
  status (serve (main.replicasRoute r) s false)
    = status (serve (main.replicasRoute r) s true)
  ∧ is_Some (status (serve (main.replicasRoute r) s false))
  ∧ body (serve (main.replicasRoute r) s false) = []
  ∧ calls (serve (main.replicasRoute r) s false)
    = calls (serve (main.replicasRoute r) s true)
  ∧ store (serve (main.replicasRoute r) s false)
    = store (serve (main.replicasRoute r) s true)
  ∧ status (serve (main.deploymentsRoute r) s false)
    = status (serve (main.deploymentsRoute r) s true)
  ∧ is_Some (status (serve (main.deploymentsRoute r) s false))
  ∧ body (serve (main.deploymentsRoute r) s false) = [].
Proof.
  destruct (replicasRoute_answered s r) as (s' & cs & code & docs & Hrun).
  rewrite !Hrun.
  unfold main.deploymentsRoute, main.loggingMiddleware.
  rewrite !ListDeployments_run.
  destruct (client.List s _); by split_and!.
Qed.

End MoreDeployments.

(** ** More of the health handler and of [main] *)

(** X14. The health handler answers 200 exactly when the upstream call
    reports no error and its body reads without error as the text "ok";
    any other body, "ok" with a newline or in capitals included, does not
    make it healthy. *)
Theorem X14_healthy_iff_upstream_says_ok (h : handlers.HealthzHandler)
    (r : http.Request) (up : bool) :
  let res := handlers.Client h "/healthz" in
  http.Code (handlers.ServeHTTP h r (http.NewWriter up)).2 = Some 200
  ↔ rest.Error res = None ∧ rest.Raw res = ("ok", None).
Proof.
  intros res. unfold handlers.ServeHTTP. fold res. clearbody res.
  destruct (rest.Error res) as [err|].
  { step_handler. destruct up; split; (done || by intros [? _]). }
  destruct (rest.Raw res) as [raw [err|]].
  { step_handler. destruct up; split; (done || by intros [_ ?]). }
  destruct (decide (raw = "ok")) as [->|Hne].
  - step_handler. by destruct up.
  - step_handler. destruct up; split; (done || (intros [_ [=]]; done)).
Qed.

(** X15. The unauthenticated server serves the health check on the exact
    path "/healthz", with the answer of the health handler, and answers
    every other path with a bare 404: no body and no header. *)
Theorem X15_health_only_server (h : handlers.HealthzHandler)
    (r : http.Request) (up : bool) :
  (url.Path (http.URL r) = "/healthz" →
     main.healthzServerHandler h r (http.NewWriter up)
     = handlers.ServeHTTP h r (http.NewWriter up))
  ∧ (url.Path (http.URL r) ≠ "/healthz" →
     (main.healthzServerHandler h r (http.NewWriter up)).2
     = {| http.Header := ∅; http.Code := Some 404; http.Sent := [];
          http.ConnUp := up |}).
Proof.
  unfold main.healthzServerHandler. split; intros Hpath.
  - by rewrite decide_True.
  - by rewrite decide_False.
Qed.

(** X16. Cluster credentials: the kubeconfig wins when it loads, the
    in-cluster configuration is the fallback, and startup is fatal exactly
    when both fail, with a message that tells "not running in cluster"
    from any other in-cluster error. *)
Theorem X16_kubeconfig_then_in_cluster {RestConfig : Type}
    (BuildConfigFromFlags : string → string → error + RestConfig)
    (InClusterConfig : unit → error + RestConfig) (kubeconfig : string) :
  (∀ config,
     main.restConfig BuildConfigFromFlags InClusterConfig kubeconfig
       = main.Ready config
     ↔ BuildConfigFromFlags "" kubeconfig = inr config
       ∨ (∃ err, BuildConfigFromFlags "" kubeconfig = inl err)
         ∧ InClusterConfig tt = inr config)
  ∧ (∀ msg,
     main.restConfig BuildConfigFromFlags InClusterConfig kubeconfig
       = main.Fatal msg
     ↔ ∃ err err',
         BuildConfigFromFlags "" kubeconfig = inl err
         ∧ InClusterConfig tt = inl err'
         ∧ msg = if decide (err' = main.ErrNotInCluster)
                 then "kubeconfig failed to load and not running in cluster, cannot continue. Please provide a valid kubeconfig file or run in-cluster"
                 else "Error getting in-cluster config: " +:+ err').
Proof.
  unfold main.restConfig.
  destruct (BuildConfigFromFlags "" kubeconfig) as [err|c].
  - destruct (InClusterConfig tt) as [err'|c'].
    + split.
      * intros config. split.
        -- by destruct (decide (err' = main.ErrNotInCluster)).
        -- by intros [?|[_ ?]].
      * intros msg. split.
        -- intros Hmsg. exists err, err'. split_and!; [done..|].
           destruct (decide (err' = main.ErrNotInCluster)); by injection Hmsg.
        -- intros (e & e' & _ & [= <-] & ->).
           by destruct (decide (err' = main.ErrNotInCluster)).
    + split.
      * intros config. split.
        -- intros [= ->]. right. eauto.
        -- intros [[=]|[_ [= ->]]]. done.
      * intros msg. split; [done|]. by intros (? & ? & _ & ? & _).
  - split.
    + intros config. split.
      * intros [= ->]. by left.
      * intros [[= ->]|[[? ?] _]]; done.
    + intros msg. split; [done|]. by intros (? & ? & ? & _).
Qed.

(** X17. The TLS setup is fatal exactly when the key pair does not load,
    or it loads and the CA file cannot be read; the key pair is reported
    first. *)
Theorem X17_tls_setup_failures {Certificate CertPool : Type}
    (LoadX509KeyPair : string → string → error + Certificate)
    (ReadFile : string → error + string)
    (NewCertPool : CertPool)
    (AppendCertsFromPEM : CertPool → string → CertPool)
    (serverCert certKey caCert : string) (msg : string) :
  main.tlsConfig LoadX509KeyPair ReadFile NewCertPool AppendCertsFromPEM
    serverCert certKey caCert = main.Fatal msg
  ↔ (∃ err, LoadX509KeyPair serverCert certKey = inl err
            ∧ msg = "Error loading server certificate and private key: " +:+ err)
    ∨ (∃ cert err, LoadX509KeyPair serverCert certKey = inr cert
                   ∧ ReadFile caCert = inl err
                   ∧ msg = "Error loading CA certificate: " +:+ err).
Proof.
  unfold main.tlsConfig.
  destruct (LoadX509KeyPair serverCert certKey) as [err|cert].
  - split.
    + intros [= <-]. left. eauto.
    + intros [(e & [= <-] & ->)|(? & ? & ? & _)]; done.
  - destruct (ReadFile caCert) as [err|pem].
    + split.
      * intros [= <-]. right. eauto.
      * intros [(? & ? & _)|(c & e & _ & [= <-] & ->)]; done.
    + split; [done|]. intros [(? & ? & _)|(? & ? & _ & ? & _)]; done.
Qed.

(** X18. A CA file that reads but adds no certificate to the pool is not
    a startup error: the configuration is built all the same, and, no
    certificate verifying against the empty pool, it then accepts no
    client at all. *)
Theorem X18_empty_ca_pool_accepts_nobody {Certificate CertPool : Type}
    (LoadX509KeyPair : string → string → error + Certificate)
    (ReadFile : string → error + string)
    (NewCertPool : CertPool)
    (AppendCertsFromPEM : CertPool → string → CertPool)
    (verify : CertPool → Certificate → bool)
    (serverCert certKey caCert : string) (cert : Certificate) (pem : string) :
  LoadX509KeyPair serverCert certKey = inr cert →
  ReadFile caCert = inr pem →
  AppendCertsFromPEM NewCertPool pem = NewCertPool →
  (∀ x, verify NewCertPool x = false) →
  ∃ cfg,
    main.tlsConfig LoadX509KeyPair ReadFile NewCertPool AppendCertsFromPEM
      serverCert certKey caCert = main.Ready cfg
    ∧ ∀ crt, tls.clientCertAccepted verify cfg crt = false.
Proof.
  intros Hload Hread Hnothing Hverify. unfold main.tlsConfig.
  rewrite Hload, Hread. eexists. split; [done|].
  intros [x|]; simpl; [|done]. by rewrite Hnothing.
Qed.

(** X19. [run] starts the servers exactly when every step of the startup
    succeeds, in this order: home directory, flags (the kubeconfig flag
    defaulting to ".kube/config" under the home directory, the port to
    "8443"), TLS setup, cluster credentials, clientset, manager. The main
    server then listens on ":<port>" with the TLS configuration of the
    certificate flags, the health server on ":8080". *)
Theorem X19_run_serves_iff_every_step_succeeds
    {Certificate CertPool RestConfig Clientset Manager : Type}
    (UserHomeDir : error + string)
    (filepath_Join : list string → string)
    (flagParse : main.Flags → error + main.Flags)
    (LoadX509KeyPair : string → string → error + Certificate)
    (ReadFile : string → error + string)
    (NewCertPool : CertPool)
    (AppendCertsFromPEM : CertPool → string → CertPool)
    (BuildConfigFromFlags : string → string → error + RestConfig)
    (InClusterConfig : unit → error + RestConfig)
    (NewForConfig : RestConfig → error + Clientset)
    (AddToScheme : option error)
    (NewManager : unit → error + Manager)
    (srv : main.Servers Certificate CertPool RestConfig Clientset Manager) :
  main.run UserHomeDir filepath_Join flagParse LoadX509KeyPair ReadFile
    NewCertPool AppendCertsFromPEM BuildConfigFromFlags InClusterConfig
    NewForConfig AddToScheme NewManager = main.Serving srv
  ↔ ∃ homedir flags,
      UserHomeDir = inr homedir
      ∧ flagParse {| main.port := "8443";
                     main.kubeconfig := filepath_Join [homedir; ".kube"; "config"];
                     main.serverCert := ""; main.certKey := "";
                     main.caCert := "" |} = inr flags
      ∧ main.tlsConfig LoadX509KeyPair ReadFile NewCertPool AppendCertsFromPEM
          (main.serverCert flags) (main.certKey flags) (main.caCert flags)
        = main.Ready (main.serverTLSConfig srv)
      ∧ main.restConfig BuildConfigFromFlags InClusterConfig (main.kubeconfig flags)
        = main.Ready (main.clusterConfig srv)
      ∧ NewForConfig (main.clusterConfig srv) = inr (main.clientset srv)
      ∧ AddToScheme = None
      ∧ NewManager tt = inr (main.mgr srv)
      ∧ main.serverAddr srv = ":" +:+ main.port flags
      ∧ main.healthzAddr srv = ":8080".
Proof.
  unfold main.run, main.setupManager. split.
  - destruct UserHomeDir as [e|homedir]; [done|].
    destruct (flagParse _) as [e|flags] eqn:Hflags; [done|].
    destruct (main.tlsConfig _ _ _ _ _ _ _) as [m|tc] eqn:Htls; [done|].
    destruct (main.restConfig _ _ _) as [m|config] eqn:Hcreds; [done|].
    destruct (NewForConfig config) as [e|cs] eqn:Hcs; [done|].
    destruct AddToScheme as [e|]; [done|].
    destruct (NewManager tt) as [e|m] eqn:Hmgr; [done|].
    intros [= <-]. exists homedir, flags. by split_and!.
  - intros (homedir & flags & -> & -> & -> & -> & Hcs & -> & Hmgr & Haddr & Hhealth).
    rewrite Hcs, Hmgr. destruct srv; simpl in *. by subst.
Qed.

(** X20. [run] hands an error back to [main] (exit status 1) only from
    the home-directory lookup, the flag parsing or the construction of the
    clientset; failures of the TLS setup, of the cluster credentials and of
    the manager never come back as an error (they end the process through
    [klog.Fatalf]). *)
Theorem X20_run_returns_errors_of_three_steps
    {Certificate CertPool RestConfig Clientset Manager : Type}
    (UserHomeDir : error + string)
    (filepath_Join : list string → string)
    (flagParse : main.Flags → error + main.Flags)
    (LoadX509KeyPair : string → string → error + Certificate)
    (ReadFile : string → error + string)
    (NewCertPool : CertPool)
    (AppendCertsFromPEM : CertPool → string → CertPool)
    (BuildConfigFromFlags : string → string → error + RestConfig)
    (InClusterConfig : unit → error + RestConfig)
    (NewForConfig : RestConfig → error + Clientset)
    (AddToScheme : option error)
    (NewManager : unit → error + Manager)
    (err : error) :
  main.run UserHomeDir filepath_Join flagParse LoadX509KeyPair ReadFile
    NewCertPool AppendCertsFromPEM BuildConfigFromFlags InClusterConfig
    NewForConfig AddToScheme NewManager
    = main.Returned (A := main.Servers Certificate CertPool RestConfig Clientset Manager) err →
  UserHomeDir = inl err
  ∨ (∃ defaults, flagParse defaults = inl err)
  ∨ (∃ flags config,
       main.restConfig BuildConfigFromFlags InClusterConfig (main.kubeconfig flags)
         = main.Ready config
       ∧ NewForConfig config = inl err).
Proof.
  unfold main.run.
  destruct UserHomeDir as [e|homedir]; [intros [= ->]; by left|].
  destruct (flagParse _) as [e|flags] eqn:Hflags.
  { intros [= ->]. right. left. eauto. }
  destruct (main.tlsConfig _ _ _ _ _ _ _) as [m|tc]; [done|].
  destruct (main.restConfig _ _ _) as [m|config] eqn:Hcreds; [done|].
  destruct (NewForConfig config) as [e|cs] eqn:Hcs.
  { intros [= ->]. right. right. eauto. }
  by destruct (main.setupManager AddToScheme NewManager).
Qed.

(** ** The new properties on the data of the tests *)

Section MoreScenarios.
#[local] Existing Instance memstore.test_Unmarshal.

Example test_run_serves :
  main.run (inr "/home/api") testdata.joinSlash testdata.parseCertFlags
    testdata.loadKeyPair testdata.readFile [] testdata.appendPEM
    testdata.buildConfig testdata.notInCluster (λ config, inr config)
    None (λ _, inr "manager")
  = main.Serving
      {| main.serverAddr := ":8443";
         main.serverTLSConfig :=
           {| tls.Certificates := ["server-cert"];
              tls.ClientAuth := tls.RequireAndVerifyClientCert;
              tls.ClientCAs := ["ca-cert"];
              tls.MinVersion := tls.VersionTLS13 |};
         main.healthzAddr := ":8080";
         main.clusterConfig := "kubeconfig";
         main.clientset := "kubeconfig";
         main.mgr := "manager" |}.
Proof. reflexivity. Qed.

Example test_run_without_cluster_access :
  main.run (inr "/home/nobody") testdata.joinSlash testdata.parseCertFlags
    testdata.loadKeyPair testdata.readFile [] testdata.appendPEM
    testdata.buildConfig testdata.notInCluster (λ config, inr config)
    None (λ _, inr "manager")
  = main.Exited (A := main.Servers string (list string) string string string)
      "kubeconfig failed to load and not running in cluster, cannot continue. Please provide a valid kubeconfig file or run in-cluster".
Proof. reflexivity. Qed.

Lemma X1_witness :
  handlers.parseNamespaceAndDeploymentNameFromURL testdata.getReplicas
  = ("test-namespace", "test-deployment").
Proof.
  apply (X1_parse_third_and_fourth_segment testdata.getReplicas
           "" "deployments" "test-namespace" "test-deployment" ["replicas"]);
    [reflexivity | by repeat constructor].
Defined.

Lemma X3_witness :
  serve (main.replicasRoute testdata.getWithoutSuffix) testdata.oneDeployment true
  = serve (main.replicasRoute testdata.getReplicas) testdata.oneDeployment true.
Proof.
  apply (X3_route_reads_two_segments testdata.oneDeployment testdata.getReplicas
           testdata.getWithoutSuffix true "" "deployments" "" "deployments"
           "test-namespace" "test-deployment" ["replicas"] []);
    [reflexivity | reflexivity | reflexivity | reflexivity
    | by repeat constructor | by repeat constructor].
Defined.

Lemma X5_witness :
  status (serve (handlers.GetDeploymentReplicas testdata.getReplicas)
            testdata.twoNamespaces true) = Some 200
  ∧ body (serve (handlers.GetDeploymentReplicas testdata.getReplicas)
            testdata.twoNamespaces true)
    = [json.Obj [("name", json.Str "test-deployment");
                 ("namespace", json.Str "test-namespace");
                 ("replicas", json.Null)]].
Proof.
  destruct (X5_get_replicas_found testdata.twoNamespaces testdata.getReplicas true
              "test-namespace" "test-deployment"
              (testdata.deployment "test-namespace" "test-deployment" None))
    as (H200 & Hbody & _); [reflexivity | reflexivity |].
  split; [exact H200 | exact Hbody].
Defined.

Lemma X6_witness :
  status (serve (handlers.SetDeploymentReplicas testdata.putFooBarGarbage)
            testdata.fooBar true) = Some 400
  ∧ store (serve (handlers.SetDeploymentReplicas testdata.putFooBarGarbage)
             testdata.fooBar true) = testdata.fooBar.
Proof.
  destruct (X6_set_replicas_bad_body testdata.fooBar testdata.putFooBarGarbage true
              "foo" "bar" (testdata.deployment "foo" "bar" (Some 3))
              "invalid character 'r' looking for beginning of value")
    as (H400 & _ & Hstore & _); [reflexivity | reflexivity | reflexivity |].
  split; [exact H400 | exact Hstore].
Defined.

Lemma X7_witness :
  ∃ obj,
    calls (serve (handlers.SetDeploymentReplicas
                    (testdata.request "PUT" "/deployments/foo/bar/replicas" ∅
                       (memstore.body1 "replicas" "0")))
             testdata.fooBar true)
    = [client.CallGet {| client.Namespace := "foo"; client.Name := "bar" |};
       client.CallPatch obj
         (client.MergeFrom (testdata.deployment "foo" "bar" (Some 3)))]
    ∧ appsv1.ObjectMeta obj
      = appsv1.ObjectMeta (testdata.deployment "foo" "bar" (Some 3))
    ∧ appsv1.Replicas (appsv1.Spec obj) = Some 0.
Proof.
  apply (X7_set_replicas_patches_count_only testdata.fooBar
           (testdata.request "PUT" "/deployments/foo/bar/replicas" ∅
              (memstore.body1 "replicas" "0"))
           true "foo" "bar" (testdata.deployment "foo" "bar" (Some 3)) 0);
    [reflexivity | reflexivity | reflexivity | lia].
Defined.

Lemma X8_witness :
  status (serve (handlers.SetDeploymentReplicas (Hclient := testdata.brokenPatch)
                   testdata.putReplicas7) testdata.oneDeployment true) = Some 500
  ∧ body (serve (handlers.SetDeploymentReplicas (Hclient := testdata.brokenPatch)
                   testdata.putReplicas7) testdata.oneDeployment true)
    = [json.Obj [("message",
                  json.Str "Error patching deployment test-deployment in namespace test-namespace")]].
Proof.
  destruct (X8_set_replicas_patch_failure (Hclient := testdata.brokenPatch)
              testdata.oneDeployment testdata.putReplicas7 true
              "test-namespace" "test-deployment"
              (testdata.deployment "test-namespace" "test-deployment" (Some 3))
              {| handlers.Replicas_ := Some 7 |} testdata.oneDeployment
              "the server is currently unable to handle the request")
    as (H500 & Hbody & _);
    [reflexivity | reflexivity | reflexivity | reflexivity | reflexivity |].
  split; [exact H500 | exact Hbody].
Defined.

Lemma X9_witness :
  status (serve (handlers.SetDeploymentReplicas testdata.putReplicas7)
            testdata.oneDeployment true) = Some 200
  ∧ body (serve (handlers.SetDeploymentReplicas testdata.putReplicas7)
            testdata.oneDeployment true)
    = [json.Obj [("name", json.Str "test-deployment");
                 ("namespace", json.Str "test-namespace");
                 ("replicas", json.Num 7)]].
Proof.
  destruct (X9_set_replicas_reports_store_answer testdata.oneDeployment
              testdata.putReplicas7 true "test-namespace" "test-deployment"
              (testdata.deployment "test-namespace" "test-deployment" (Some 3))
              {| handlers.Replicas_ := Some 7 |}
              [testdata.deployment "test-namespace" "test-deployment" (Some 7)]
              (testdata.deployment "test-namespace" "test-deployment" (Some 7)))
    as (H200 & Hbody & _);
    [reflexivity | reflexivity | reflexivity | reflexivity | reflexivity |].
  split; [exact H200 | exact Hbody].
Defined.

Lemma X10_witness :
  status (serve (main.replicasRoute testdata.deleteReplicas)
            testdata.oneDeployment true) = Some 405
  ∧ body (serve (main.replicasRoute testdata.deleteReplicas)
            testdata.oneDeployment true) = []
  ∧ calls (serve (main.replicasRoute testdata.deleteReplicas)
             testdata.oneDeployment true) = []
  ∧ store (serve (main.replicasRoute testdata.deleteReplicas)
             testdata.oneDeployment true) = testdata.oneDeployment.
Proof.
  apply (X10_other_methods_are_405 testdata.oneDeployment testdata.deleteReplicas true);
    by vm_compute.
Defined.

Lemma X11_witness :
  calls (serve (main.replicasRoute testdata.getReplicas) testdata.oneDeployment true)
  = [client.CallGet {| client.Namespace := "test-namespace";
                       client.Name := "test-deployment" |}]
  ∧ store (serve (main.replicasRoute testdata.getReplicas) testdata.oneDeployment true)
    = testdata.oneDeployment.
Proof.
  apply (X11_get_route_only_reads testdata.oneDeployment testdata.getReplicas true).
  reflexivity.
Defined.

Lemma X18_witness :
  ∃ cfg,
    main.tlsConfig testdata.loadKeyPair testdata.readFile [] testdata.appendNothing
      "server.crt" "server.key" "ca.crt" = main.Ready cfg
    ∧ ∀ crt, tls.clientCertAccepted testdata.verifyIn cfg crt = false.
Proof.
  apply (X18_empty_ca_pool_accepts_nobody testdata.loadKeyPair testdata.readFile
           [] testdata.appendNothing testdata.verifyIn
           "server.crt" "server.key" "ca.crt" "server-cert" "ca-cert");
    [reflexivity | reflexivity | reflexivity | intros x; reflexivity].
Defined.

Lemma X20_witness :
  inl "$HOME is not defined" = inl (B := string) "$HOME is not defined"
  ∨ (∃ defaults, testdata.parseCertFlags defaults = inl "$HOME is not defined")
  ∨ (∃ flags config,
       main.restConfig testdata.buildConfig testdata.notInCluster
         (main.kubeconfig flags) = main.Ready config
       ∧ (λ c : string, inr (A := error) c) config = inl "$HOME is not defined").
Proof.
  apply (X20_run_returns_errors_of_three_steps (inl "$HOME is not defined")
           testdata.joinSlash testdata.parseCertFlags testdata.loadKeyPair
           testdata.readFile [] testdata.appendPEM testdata.buildConfig
           testdata.notInCluster (λ c : string, inr (A := error) c) None
           (λ _, inr "manager") "$HOME is not defined").
  reflexivity.
Defined.

End MoreScenarios.
